(** * Throome Python SDK: request/response contract layer

    A shallow embedding of [sdk/python/src/throome] (client.py, types.py,
    exceptions.py).  Python values are a small universe [pyval]; exceptions
    are values with a class, and [except] clauses select by [issubclass];
    every method that talks to the gateway runs in a state-and-error monad
    whose state is the log of HTTP requests issued through the session. *)

From Stdlib Require Import ZArith List String Ascii Bool Lia.
From Stdlib Require Import Strings.Byte DecimalString.
Import ListNotations.

Set Warnings "-register-all".

Local Open Scope string_scope.
Local Open Scope Z_scope.

(** ** Python values *)

Module Py.

(** What [json.loads] produces and what [json=]/[params=] accept.  A float
    is kept as its [repr] text, which determines it. *)
Inductive pyval : Type :=
| PNone
| PBool (b : bool)
| PInt (n : Z)
| PFloat (repr : string)
| PStr (s : string)
| PList (xs : list pyval)
| PDict (kvs : list (string * pyval)).

Definition float_is_zero (repr : string) : bool :=
  (repr =? "0.0")%string || (repr =? "-0.0")%string.

(** [bool(v)]: the truth value used by [if], [not] and [or]. *)
Definition truthy (v : pyval) : bool :=
  match v with
  | PNone => false
  | PBool b => b
  | PInt n => negb (n =? 0)
  | PFloat r => negb (float_is_zero r)
  | PStr s => negb (s =? "")%string
  | PList xs => match xs with [] => false | _ :: _ => true end
  | PDict kvs => match kvs with [] => false | _ :: _ => true end
  end.

(** [a or b] *)
Definition py_or (a b : pyval) : pyval := if truthy a then a else b.

(** Insertion-ordered dictionaries with string keys. *)
Fixpoint dict_lookup {V : Type} (k : string) (d : list (string * V)) : option V :=
  match d with
  | [] => None
  | (k', v) :: d' => if (k =? k')%string then Some v else dict_lookup k d'
  end.

(** [d[k] = v]: overwrite in place, or append a new key at the end. *)
Fixpoint dict_set {V : Type} (k : string) (v : V) (d : list (string * V))
  : list (string * V) :=
  match d with
  | [] => [(k, v)]
  | (k', v') :: d' =>
      if (k =? k')%string then (k', v) :: d' else (k', v') :: dict_set k v d'
  end.

Definition dict_keys {V : Type} (d : list (string * V)) : list string :=
  map fst d.

(** [{k: f(k, c) for k, c in items}] *)
Definition dict_comprehension {A V : Type} (f : string -> A -> V)
  (items : list (string * A)) : list (string * V) :=
  fold_left (fun acc kc => dict_set (fst kc) (f (fst kc) (snd kc)) acc) items [].

(** [list(message)] for [message : bytes]: the integer value of each byte. *)
Definition list_of_bytes (message : list byte) : list pyval :=
  map (fun b => PInt (Z.of_N (Byte.to_N b))) message.

(** [s.rstrip("/")] *)
Fixpoint rstrip_slash (s : string) : string :=
  match s with
  | EmptyString => EmptyString
  | String c s' =>
      match rstrip_slash s' with
      | EmptyString => if (c =? "/")%char then EmptyString else String c EmptyString
      | r => String c r
      end
  end.

End Py.
Export Py.

(** ** Exceptions *)

Module exceptions.

(** Classes that can reach a caller of the SDK: the interpreter's built-in
    ones, those of the [requests] library, and the three of exceptions.py. *)
Inductive exn_class : Type :=
| BaseException | Exception
| TypeError | ValueError | AttributeError | LookupError | KeyError | IndexError
| RuntimeError | NotImplementedError | OSError
| StdJSONDecodeError
| RequestException | InvalidJSONError | JSONDecodeError | HTTPError
| ConnectionError | ProxyError | SSLError
| Timeout | ConnectTimeout | ReadTimeout
| InvalidURL | TooManyRedirects
| ThroomError | ThroomAPIError | ThroomConnectionError.

(** Direct base classes (several for the diamond cases of [requests]). *)
Definition bases (c : exn_class) : list exn_class :=
  match c with
  | BaseException => []
  | Exception => [BaseException]
  | TypeError | ValueError | AttributeError | LookupError
  | RuntimeError | OSError => [Exception]
  | KeyError | IndexError => [LookupError]
  | NotImplementedError => [RuntimeError]
  | StdJSONDecodeError => [ValueError]
  | RequestException => [OSError]
  | InvalidJSONError | HTTPError | ConnectionError | Timeout
  | TooManyRedirects => [RequestException]
  | JSONDecodeError => [InvalidJSONError; StdJSONDecodeError]
  | ProxyError | SSLError => [ConnectionError]
  | ConnectTimeout => [ConnectionError; Timeout]
  | ReadTimeout => [Timeout]
  | InvalidURL => [RequestException; ValueError]
  (* exceptions.py *)
  | ThroomError => [Exception]
  | ThroomAPIError => [ThroomError]
  | ThroomConnectionError => [ThroomError]
  end.

Definition exn_class_eqb (a b : exn_class) : bool :=
  match a, b with
  | BaseException, BaseException | Exception, Exception
  | TypeError, TypeError | ValueError, ValueError
  | AttributeError, AttributeError | LookupError, LookupError
  | KeyError, KeyError | IndexError, IndexError
  | RuntimeError, RuntimeError | NotImplementedError, NotImplementedError
  | OSError, OSError | StdJSONDecodeError, StdJSONDecodeError
  | RequestException, RequestException | InvalidJSONError, InvalidJSONError
  | JSONDecodeError, JSONDecodeError | HTTPError, HTTPError
  | ConnectionError, ConnectionError | ProxyError, ProxyError
  | SSLError, SSLError | Timeout, Timeout | ConnectTimeout, ConnectTimeout
  | ReadTimeout, ReadTimeout | InvalidURL, InvalidURL
  | TooManyRedirects, TooManyRedirects
  | ThroomError, ThroomError | ThroomAPIError, ThroomAPIError
  | ThroomConnectionError, ThroomConnectionError => true
  | _, _ => false
  end.

(** [issubclass(c, d)]: [d] is reached from [c] through [bases].  The
    hierarchy is six levels deep at most. *)
Fixpoint issubclass_upto (fuel : nat) (c d : exn_class) : bool :=
  exn_class_eqb c d ||
  match fuel with
  | O => false
  | S fuel' => existsb (fun b => issubclass_upto fuel' b d) (bases c)
  end.

Definition issubclass : exn_class -> exn_class -> bool := issubclass_upto 6.

(** An exception value.  Its message is kept as the pieces of the f-string
    that built it; [status_code] is the attribute only [ThroomAPIError]
    sets; [context] is the exception being handled when this one was
    raised ([__context__]). *)
Inductive exn : Type :=
| Exn (cls : exn_class) (message : list fpart) (status_code : option Z)
      (context : option exn)
with fpart : Type :=
| FLit (s : string)
| FVal (v : pyval)
| FExn (e : exn).

Definition exn_cls (e : exn) : exn_class :=
  match e with Exn c _ _ _ => c end.
Definition exn_message (e : exn) : list fpart :=
  match e with Exn _ m _ _ => m end.
Definition exn_status_code (e : exn) : option Z :=
  match e with Exn _ _ s _ => s end.
Definition exn_context (e : exn) : option exn :=
  match e with Exn _ _ _ c => c end.

Definition isinstance (e : exn) (c : exn_class) : bool :=
  issubclass (exn_cls e) c.
Arguments isinstance : simpl never.

(** [str()] of a message, for any [str] of values and of exceptions. *)
Definition render_part (str_val : pyval -> string) (str_exn : exn -> string)
  (p : fpart) : string :=
  match p with
  | FLit s => s
  | FVal v => str_val v
  | FExn e => str_exn e
  end.

Definition render (str_val : pyval -> string) (str_exn : exn -> string)
  (m : list fpart) : string :=
  String.concat "" (map (render_part str_val str_exn) m).

(** [ThroomAPIError(message, status_code=...)] raised outside any handler. *)
Definition mkThroomAPIError (message : list fpart) (status_code : Z) : exn :=
  Exn ThroomAPIError message (Some status_code) None.

(** [ThroomConnectionError(message)] raised while handling [cause]. *)
Definition mkThroomConnectionError (message : list fpart) (cause : exn) : exn :=
  Exn ThroomConnectionError message None (Some cause).

(** An exception raised by the interpreter or by a built-in. *)
Definition builtin_error (c : exn_class) (message : list fpart) : exn :=
  Exn c message None None.

End exceptions.
Export exceptions.

(** ** Results and the interpreter's built-in operations *)

Module Interp.

(** An evaluation either returns a value or raises. *)
Inductive result (A : Type) : Type :=
| Ok (a : A)
| Raise (e : exn).
Arguments Ok {A} a.
Arguments Raise {A} e.

Definition rbind {A B : Type} (r : result A) (k : A -> result B) : result B :=
  match r with
  | Ok a => k a
  | Raise e => Raise e
  end.

Notation "x <~ c1 ;; c2" := (rbind c1 (fun x => c2))
  (at level 61, c1 at next level, right associativity).

Fixpoint rmap {A B : Type} (f : A -> result B) (xs : list A) : result (list B) :=
  match xs with
  | [] => Ok []
  | x :: xs' =>
      y <~ f x ;;
      ys <~ rmap f xs' ;;
      Ok (y :: ys)
  end.

(** [v[k]] for a string key. *)
Definition py_getitem (v : pyval) (k : string) : result pyval :=
  match v with
  | PDict kvs =>
      match dict_lookup k kvs with
      | Some x => Ok x
      | None => Raise (builtin_error KeyError [FVal (PStr k)])
      end
  | _ => Raise (builtin_error TypeError [])
  end.

(** [v[0]].  Keys of a decoded JSON object are strings, so [0] is never
    among them. *)
Definition py_getitem0 (v : pyval) : result pyval :=
  match v with
  | PList (x :: _) => Ok x
  | PList [] => Raise (builtin_error IndexError [])
  | PStr (String c _) => Ok (PStr (String c EmptyString))
  | PStr EmptyString => Raise (builtin_error IndexError [])
  | PDict _ => Raise (builtin_error KeyError [FVal (PInt 0)])
  | _ => Raise (builtin_error TypeError [])
  end.

(** [v.get(k, default)]; only a dict has the method. *)
Definition py_get (v : pyval) (k : string) (default : pyval) : result pyval :=
  match v with
  | PDict kvs =>
      match dict_lookup k kvs with
      | Some x => Ok x
      | None => Ok default
      end
  | _ => Raise (builtin_error AttributeError [])
  end.

(** The items a [for] loop or a comprehension visits. *)
Definition py_iter (v : pyval) : result (list pyval) :=
  match v with
  | PList xs => Ok xs
  | PDict kvs => Ok (map PStr (dict_keys kvs))
  | PStr s => Ok (map (fun c => PStr (String c EmptyString)) (list_ascii_of_string s))
  | _ => Raise (builtin_error TypeError [])
  end.

Definition mem_string (k : string) (ks : list string) : bool :=
  existsb (String.eqb k) ks.

Definition has_key {V : Type} (d : list (string * V)) (k : string) : bool :=
  match dict_lookup k d with Some _ => true | None => false end.

(** Binding of [**v] to the generated [__init__] of a dataclass whose
    fields without default are [required] and whose other fields, all
    defaulting to [None], are [optional].  The result reads a field. *)
Definition dataclass_kwargs (required optional : list string) (v : pyval)
  : result (string -> pyval) :=
  match v with
  | PDict kvs =>
      if forallb (fun k => mem_string k (required ++ optional)%list) (dict_keys kvs)
      then
        if forallb (has_key kvs) required
        then Ok (fun k => match dict_lookup k kvs with
                          | Some x => x
                          | None => PNone
                          end)
        else Raise (builtin_error TypeError [])
      else Raise (builtin_error TypeError [])
  | _ => Raise (builtin_error TypeError [])
  end.

(** [v.items()]; only a dict has the method. *)
Definition py_items (v : pyval) : result (list (string * pyval)) :=
  match v with
  | PDict kvs => Ok kvs
  | _ => Raise (builtin_error AttributeError [])
  end.

(** The loop of a dict comprehension whose value expression may raise:
    items are visited in order, each value stored under its key. *)
Fixpoint rdict_build {A V : Type} (f : string -> A -> result V)
  (items : list (string * A)) (acc : list (string * V)) : result (list (string * V)) :=
  match items with
  | [] => Ok acc
  | (k, a) :: items' =>
      y <~ f k a ;;
      rdict_build f items' (dict_set k y acc)
  end.

End Interp.
Export Interp.

(** ** types.py *)

Module types.

Record Service : Type := {
  Service_name : pyval;
  Service_type : pyval;
  Service_host : pyval;
  Service_port : pyval;
  Service_healthy : pyval;
  Service_username : pyval;
  Service_database : pyval;
  Service_container_id : pyval
}.

Record Cluster : Type := {
  Cluster_id : pyval;
  Cluster_name : pyval;
  Cluster_created_at : pyval;
  Cluster_services : list Service
}.

Record ServiceConfig : Type := {
  ServiceConfig_type : string;
  ServiceConfig_provision : bool;
  ServiceConfig_port : Z;
  ServiceConfig_host : option string;
  ServiceConfig_username : option string;
  ServiceConfig_password : option string;
  ServiceConfig_database : option string
}.

Record CreateClusterResponse : Type := {
  CreateClusterResponse_cluster_id : pyval;
  CreateClusterResponse_message : pyval
}.

Record ActivityLog : Type := {
  ActivityLog_id : pyval;
  ActivityLog_timestamp : pyval;
  ActivityLog_cluster_id : pyval;
  ActivityLog_service_name : pyval;
  ActivityLog_service_type : pyval;
  ActivityLog_operation : pyval;
  ActivityLog_command : pyval;
  ActivityLog_parameters : pyval;
  ActivityLog_duration : pyval;
  ActivityLog_status : pyval;
  ActivityLog_response : pyval;
  ActivityLog_error : pyval;
  ActivityLog_client_info : pyval
}.

Record ActivityFilters : Type := {
  ActivityFilters_limit : option Z
}.

Record LogOptions : Type := {
  LogOptions_tail : option Z;
  LogOptions_timestamps : bool
}.

(** The call [Service] makes with the keywords of [s]. *)
Definition Service_init (s : pyval) : result Service :=
  kw <~ dataclass_kwargs ["name"; "type"; "host"; "port"; "healthy"]
                         ["username"; "database"; "container_id"] s ;;
  Ok {| Service_name := kw "name";
        Service_type := kw "type";
        Service_host := kw "host";
        Service_port := kw "port";
        Service_healthy := kw "healthy";
        Service_username := kw "username";
        Service_database := kw "database";
        Service_container_id := kw "container_id" |}.

(** The call [CreateClusterResponse] makes with the keywords of [data]. *)
Definition CreateClusterResponse_init (data : pyval) : result CreateClusterResponse :=
  kw <~ dataclass_kwargs ["cluster_id"; "message"] [] data ;;
  Ok {| CreateClusterResponse_cluster_id := kw "cluster_id";
        CreateClusterResponse_message := kw "message" |}.

(** The call [ActivityLog] makes with the keywords of [log]. *)
Definition ActivityLog_init (log : pyval) : result ActivityLog :=
  kw <~ dataclass_kwargs
          ["id"; "timestamp"; "cluster_id"; "service_name"; "service_type";
           "operation"; "command"; "parameters"; "duration"; "status";
           "response"]
          ["error"; "client_info"] log ;;
  Ok {| ActivityLog_id := kw "id";
        ActivityLog_timestamp := kw "timestamp";
        ActivityLog_cluster_id := kw "cluster_id";
        ActivityLog_service_name := kw "service_name";
        ActivityLog_service_type := kw "service_type";
        ActivityLog_operation := kw "operation";
        ActivityLog_command := kw "command";
        ActivityLog_parameters := kw "parameters";
        ActivityLog_duration := kw "duration";
        ActivityLog_status := kw "status";
        ActivityLog_response := kw "response";
        ActivityLog_error := kw "error";
        ActivityLog_client_info := kw "client_info" |}.

Record HealthResponse : Type := {
  HealthResponse_status : pyval;
  HealthResponse_timestamp : pyval
}.

Record ServiceHealth : Type := {
  ServiceHealth_healthy : pyval;
  ServiceHealth_response_time : pyval;
  ServiceHealth_error_message : pyval
}.

Record ClusterHealthResponse : Type := {
  ClusterHealthResponse_cluster_id : pyval;
  ClusterHealthResponse_services : list (string * ServiceHealth)
}.

Record MetricsResponse : Type := {
  MetricsResponse_requests : pyval;
  MetricsResponse_errors : pyval;
  MetricsResponse_avg_response_ms : pyval;
  MetricsResponse_p95_response_ms : pyval;
  MetricsResponse_active_services : pyval
}.

Record ServiceInfo : Type := {
  ServiceInfo_name : pyval;
  ServiceInfo_type : pyval;
  ServiceInfo_host : pyval;
  ServiceInfo_port : pyval;
  ServiceInfo_healthy : pyval;
  ServiceInfo_container_id : pyval;
  ServiceInfo_status : pyval
}.

(** The call [HealthResponse] makes with the keywords of [data]. *)
Definition HealthResponse_init (data : pyval) : result HealthResponse :=
  kw <~ dataclass_kwargs ["status"; "timestamp"] [] data ;;
  Ok {| HealthResponse_status := kw "status";
        HealthResponse_timestamp := kw "timestamp" |}.

(** The call [ServiceHealth] makes with the keywords of [v]. *)
Definition ServiceHealth_init (v : pyval) : result ServiceHealth :=
  kw <~ dataclass_kwargs ["healthy"; "response_time"] ["error_message"] v ;;
  Ok {| ServiceHealth_healthy := kw "healthy";
        ServiceHealth_response_time := kw "response_time";
        ServiceHealth_error_message := kw "error_message" |}.

(** The call [MetricsResponse] makes with the keywords of [data]. *)
Definition MetricsResponse_init (data : pyval) : result MetricsResponse :=
  kw <~ dataclass_kwargs
          ["requests"; "errors"; "avg_response_ms"; "p95_response_ms";
           "active_services"] [] data ;;
  Ok {| MetricsResponse_requests := kw "requests";
        MetricsResponse_errors := kw "errors";
        MetricsResponse_avg_response_ms := kw "avg_response_ms";
        MetricsResponse_p95_response_ms := kw "p95_response_ms";
        MetricsResponse_active_services := kw "active_services" |}.

(** The call [ServiceInfo] makes with the keywords of [data]. *)
Definition ServiceInfo_init (data : pyval) : result ServiceInfo :=
  kw <~ dataclass_kwargs ["name"; "type"; "host"; "port"; "healthy"]
                         ["container_id"; "status"] data ;;
  Ok {| ServiceInfo_name := kw "name";
        ServiceInfo_type := kw "type";
        ServiceInfo_host := kw "host";
        ServiceInfo_port := kw "port";
        ServiceInfo_healthy := kw "healthy";
        ServiceInfo_container_id := kw "container_id";
        ServiceInfo_status := kw "status" |}.

(** An optional attribute as a Python value. *)
Definition opt_str (o : option string) : pyval :=
  match o with Some s => PStr s | None => PNone end.
Definition opt_int (o : option Z) : pyval :=
  match o with Some n => PInt n | None => PNone end.

End types.
Export types.

(** ** The session and the monad of client methods *)

Module net.

(** One call of [session.request] (or [session.get]) with its keyword
    arguments; [PNone] in [req_json] or [req_params] is an argument left
    at [None]. *)
Record http_request : Type := {
  req_method : string;
  req_url : string;
  req_json : pyval;
  req_params : pyval;
  req_timeout : Z
}.

(** The attributes of a [requests.Response] the client reads; [json] is
    what the method [response.json()] does. *)
Record response : Type := {
  status_code : Z;
  content : list byte;
  text : string;
  json : result pyval
}.

Inductive outcome : Type :=
| Responded (r : response)
| Failed (e : exn).

(** The session together with the network and the gateway behind it: what
    a call yields, given the calls made before it. *)
Definition session : Type := list http_request -> http_request -> outcome.

(** A method body: it may extend the log of calls, and returns or raises. *)
Definition M (A : Type) : Type := list http_request -> result A * list http_request.

Definition ret {A : Type} (a : A) : M A := fun log => (Ok a, log).

Definition raise {A : Type} (e : exn) : M A := fun log => (Raise e, log).

Definition bind {A B : Type} (m : M A) (k : A -> M B) : M B :=
  fun log =>
    match m log with
    | (Ok a, log') => k a log'
    | (Raise e, log') => (Raise e, log')
    end.

Definition lift {A : Type} (r : result A) : M A := fun log => (r, log).

Notation "x <- c1 ;; c2" := (bind c1 (fun x => c2))
  (at level 61, c1 at next level, right associativity).

Definition session_request (s : session) (req : http_request) : M response :=
  fun log =>
    match s log req with
    | Responded r => (Ok r, (log ++ [req])%list)
    | Failed e => (Raise e, (log ++ [req])%list)
    end.

(** [try: body  except C1 as e: h1  except C2 as e: h2 ...]: the first
    clause whose class the exception is an instance of handles it. *)
Fixpoint find_handler {A : Type} (e : exn) (hs : list (exn_class * (exn -> M A)))
  : option (exn -> M A) :=
  match hs with
  | [] => None
  | (c, h) :: hs' => if isinstance e c then Some h else find_handler e hs'
  end.

Definition try_except {A : Type} (body : M A) (hs : list (exn_class * (exn -> M A)))
  : M A :=
  fun log =>
    match body log with
    | (Ok a, log') => (Ok a, log')
    | (Raise e, log') =>
        match find_handler e hs with
        | Some h => h e log'
        | None => (Raise e, log')
        end
    end.

Definition nonempty {A : Type} (xs : list A) : bool :=
  match xs with [] => false | _ :: _ => true end.

(** [response.raise_for_status()] *)
Definition raise_for_status (r : response) : result unit :=
  if (400 <=? status_code r) && (status_code r <? 600)
  then Raise (builtin_error HTTPError [])
  else Ok tt.

End net.
Export net.

(** ** client.py *)

Module client.

Record ThroomClient : Type := {
  base_url : string;
  timeout : Z;
  session_ : session
}.

(** [ThroomClient.__init__]; the session it creates is passed in. *)
Definition ThroomClient_init (s : session) (base_url : string) (timeout : option Z)
  : ThroomClient :=
  {| base_url := rstrip_slash base_url;
     timeout := match timeout with Some t => t | None => 120 end;
     session_ := s |}.

Definition _request (self : ThroomClient) (method path : string)
  (data params : pyval) : M pyval :=
  let url := (base_url self ++ path)%string in
  try_except
    (response <- session_request (session_ self)
                   {| req_method := method; req_url := url; req_json := data;
                      req_params := params; req_timeout := timeout self |} ;;
     if 400 <=? status_code response then
       error_data <- lift (if nonempty (content response)
                           then json response else Ok (PDict [])) ;;
       m <- lift (py_get error_data "message" PNone) ;;
       message <- (if truthy m then ret m
                   else
                     e <- lift (py_get error_data "error" PNone) ;;
                     ret (py_or e (PStr (text response)))) ;;
       raise (mkThroomAPIError
                [FLit "Throome API Error ("; FVal (PInt (status_code response));
                 FLit "): "; FVal message]
                (status_code response))
     else if nonempty (content response) then lift (json response)
     else ret PNone)
    [(Timeout,
      fun e => raise (mkThroomConnectionError [FLit "Request timed out: "; FExn e] e));
     (RequestException,
      fun e => raise (mkThroomConnectionError [FLit "Connection error: "; FExn e] e))].

(** The [Cluster(...)] expression shared by [list_clusters] and
    [get_cluster], its arguments evaluated left to right. *)
Definition Cluster_of (c : pyval) : result Cluster :=
  id <~ py_getitem c "id" ;;
  name <~ py_getitem c "name" ;;
  created_at <~ py_getitem c "created_at" ;;
  ss <~ py_get c "services" (PList []) ;;
  items <~ py_iter ss ;;
  services <~ rmap Service_init items ;;
  Ok {| Cluster_id := id; Cluster_name := name;
        Cluster_created_at := created_at; Cluster_services := services |}.

Definition list_clusters (self : ThroomClient) : M (list Cluster) :=
  data <- _request self "GET" "/api/v1/clusters" PNone PNone ;;
  lift (cs <~ py_iter data ;; rmap Cluster_of cs).

Definition get_cluster (self : ThroomClient) (cluster_id : string) : M Cluster :=
  data <- _request self "GET" ("/api/v1/clusters/" ++ cluster_id)%string PNone PNone ;;
  lift (Cluster_of data).

Definition create_cluster (self : ThroomClient) (name : string)
  (services : list (string * ServiceConfig)) : M CreateClusterResponse :=
  let services_dict :=
    dict_comprehension
      (fun _ config =>
         PDict [("type", PStr (ServiceConfig_type config));
                ("port", PInt (ServiceConfig_port config));
                ("host", opt_str (ServiceConfig_host config));
                ("username", opt_str (ServiceConfig_username config));
                ("password", opt_str (ServiceConfig_password config));
                ("database", opt_str (ServiceConfig_database config))])
      services in
  data <- _request self "POST" "/api/v1/clusters"
            (PDict [("name", PStr name); ("services", PDict services_dict)]) PNone ;;
  lift (CreateClusterResponse_init data).

Definition delete_cluster (self : ThroomClient) (cluster_id : string) : M unit :=
  _ <- _request self "DELETE" ("/api/v1/clusters/" ++ cluster_id)%string PNone PNone ;;
  ret tt.

(** The conditional expression the three [get_activity] methods open
    with: the dict holding [filters.limit] if [filters and filters.limit],
    else [None].  An [ActivityFilters] instance is itself always true. *)
Definition limit_params (filters : option ActivityFilters) : pyval :=
  match filters with
  | Some f =>
      if truthy (opt_int (ActivityFilters_limit f))
      then PDict [("limit", opt_int (ActivityFilters_limit f))]
      else PNone
  | None => PNone
  end.

Definition get_activity (self : ThroomClient) (filters : option ActivityFilters)
  : M (list ActivityLog) :=
  let params := limit_params filters in
  data <- _request self "GET" "/api/v1/activity" PNone params ;;
  lift (logs <~ py_iter data ;; rmap ActivityLog_init logs).

Record ClusterClient : Type := {
  ClusterClient_client : ThroomClient;
  ClusterClient_cluster_id : string
}.

Definition cluster (self : ThroomClient) (cluster_id : string) : ClusterClient :=
  {| ClusterClient_client := self; ClusterClient_cluster_id := cluster_id |}.

Definition ClusterClient_get_activity (self : ClusterClient)
  (filters : option ActivityFilters) : M (list ActivityLog) :=
  let params := limit_params filters in
  data <- _request (ClusterClient_client self) "GET"
            ("/api/v1/clusters/" ++ ClusterClient_cluster_id self ++ "/activity")%string
            PNone params ;;
  lift (logs <~ py_iter data ;; rmap ActivityLog_init logs).

Record ServiceClient : Type := {
  ServiceClient_client : ThroomClient;
  ServiceClient_cluster_id : string;
  ServiceClient_service_name : string
}.

Definition service (self : ClusterClient) (service_name : string) : ServiceClient :=
  {| ServiceClient_client := ClusterClient_client self;
     ServiceClient_cluster_id := ClusterClient_cluster_id self;
     ServiceClient_service_name := service_name |}.

Definition get_logs (self : ServiceClient) (options : option LogOptions) : M string :=
  let params := [] in
  let params :=
    match options with
    | Some o =>
        let params :=
          if truthy (opt_int (LogOptions_tail o))
          then dict_set "tail" (opt_int (LogOptions_tail o)) params else params in
        if LogOptions_timestamps o
        then dict_set "timestamps" (PStr "true") params else params
    | None => params
    end in
  let url := (base_url (ServiceClient_client self) ++ "/api/v1/clusters/"
              ++ ServiceClient_cluster_id self ++ "/services/"
              ++ ServiceClient_service_name self ++ "/logs")%string in
  try_except
    (response <- session_request (session_ (ServiceClient_client self))
                   {| req_method := "GET"; req_url := url; req_json := PNone;
                      req_params := PDict params;
                      req_timeout := timeout (ServiceClient_client self) |} ;;
     _ <- lift (raise_for_status response) ;;
     ret (text response))
    [(RequestException,
      fun e => raise (mkThroomConnectionError [FLit "Failed to get logs: "; FExn e] e))].

Definition ServiceClient_get_activity (self : ServiceClient)
  (filters : option ActivityFilters) : M (list ActivityLog) :=
  let params := limit_params filters in
  data <- _request (ServiceClient_client self) "GET"
            ("/api/v1/clusters/" ++ ServiceClient_cluster_id self ++ "/services/"
             ++ ServiceClient_service_name self ++ "/activity")%string
            PNone params ;;
  lift (logs <~ py_iter data ;; rmap ActivityLog_init logs).

Record DBClient : Type := {
  DBClient_client : ThroomClient;
  DBClient_cluster_id : string
}.

Definition db (self : ClusterClient) : DBClient :=
  {| DBClient_client := ClusterClient_client self;
     DBClient_cluster_id := ClusterClient_cluster_id self |}.

Definition execute (self : DBClient) (query : string) (args : list pyval) : M unit :=
  _ <- _request (DBClient_client self) "POST"
         ("/api/v1/clusters/" ++ DBClient_cluster_id self ++ "/db/execute")%string
         (PDict [("query", PStr query); ("args", PList args)]) PNone ;;
  ret tt.

Definition query (self : DBClient) (query : string) (args : list pyval) : M pyval :=
  data <- _request (DBClient_client self) "POST"
            ("/api/v1/clusters/" ++ DBClient_cluster_id self ++ "/db/query")%string
            (PDict [("query", PStr query); ("args", PList args)]) PNone ;;
  lift (py_getitem data "rows").

Definition query_row (self : DBClient) (q : string) (args : list pyval) : M pyval :=
  rows <- query self q args ;;
  if negb (truthy rows)
  then raise (builtin_error ValueError [FLit "No rows returned"])
  else lift (py_getitem0 rows).

Record QueueClient : Type := {
  QueueClient_client : ThroomClient;
  QueueClient_cluster_id : string
}.

Definition queue (self : ClusterClient) : QueueClient :=
  {| QueueClient_client := ClusterClient_client self;
     QueueClient_cluster_id := ClusterClient_cluster_id self |}.

Definition publish (self : QueueClient) (topic : string) (message : list byte) : M unit :=
  _ <- _request (QueueClient_client self) "POST"
         ("/api/v1/clusters/" ++ QueueClient_cluster_id self ++ "/queue/publish")%string
         (PDict [("topic", PStr topic); ("message", PList (list_of_bytes message))])
         PNone ;;
  ret tt.

Definition subscribe (self : QueueClient) (topic : string) (handler : pyval) : M unit :=
  raise (builtin_error NotImplementedError
           [FLit "Subscribe not yet implemented in SDK - use direct Kafka consumer"]).

Definition health (self : ThroomClient) : M HealthResponse :=
  data <- _request self "GET" "/api/v1/health" PNone PNone ;;
  lift (HealthResponse_init data).

Definition ClusterClient_health (self : ClusterClient) : M ClusterHealthResponse :=
  data <- _request (ClusterClient_client self) "GET"
            ("/api/v1/clusters/" ++ ClusterClient_cluster_id self ++ "/health")%string
            PNone PNone ;;
  lift (cluster_id <~ py_getitem data "cluster_id" ;;
        ss <~ py_getitem data "services" ;;
        items <~ py_items ss ;;
        services <~ rdict_build (fun _ v => ServiceHealth_init v) items [] ;;
        Ok {| ClusterHealthResponse_cluster_id := cluster_id;
              ClusterHealthResponse_services := services |}).

Definition metrics (self : ClusterClient) : M MetricsResponse :=
  data <- _request (ClusterClient_client self) "GET"
            ("/api/v1/clusters/" ++ ClusterClient_cluster_id self ++ "/metrics")%string
            PNone PNone ;;
  lift (MetricsResponse_init data).

Definition get_info (self : ServiceClient) : M ServiceInfo :=
  data <- _request (ServiceClient_client self) "GET"
            ("/api/v1/clusters/" ++ ServiceClient_cluster_id self ++ "/services/"
             ++ ServiceClient_service_name self)%string
            PNone PNone ;;
  lift (ServiceInfo_init data).

Record CacheClient : Type := {
  CacheClient_client : ThroomClient;
  CacheClient_cluster_id : string
}.

Definition cache (self : ClusterClient) : CacheClient :=
  {| CacheClient_client := ClusterClient_client self;
     CacheClient_cluster_id := ClusterClient_cluster_id self |}.

Definition CacheClient_get (self : CacheClient) (key : string) : M pyval :=
  data <- _request (CacheClient_client self) "POST"
            ("/api/v1/clusters/" ++ CacheClient_cluster_id self ++ "/cache/get")%string
            (PDict [("key", PStr key)]) PNone ;;
  lift (py_getitem data "value").

Definition CacheClient_set (self : CacheClient) (key value : string)
  (expiration : option Z) : M unit :=
  let payload := [("key", PStr key); ("value", PStr value)] in
  let payload :=
    match expiration with
    | Some e => dict_set "expiration" (PInt e) payload
    | None => payload
    end in
  _ <- _request (CacheClient_client self) "POST"
         ("/api/v1/clusters/" ++ CacheClient_cluster_id self ++ "/cache/set")%string
         (PDict payload) PNone ;;
  ret tt.

Definition CacheClient_delete (self : CacheClient) (key : string) : M unit :=
  _ <- _request (CacheClient_client self) "POST"
         ("/api/v1/clusters/" ++ CacheClient_cluster_id self ++ "/cache/delete")%string
         (PDict [("key", PStr key)]) PNone ;;
  ret tt.

End client.
Export client.

(** * Vocabulary of the statements, and sample data *)

(** The call [_request] passes to the session. *)
Definition request_of (self : ThroomClient) (method path : string)
  (data params : pyval) : http_request :=
  {| req_method := method; req_url := (base_url self ++ path)%string;
     req_json := data; req_params := params; req_timeout := timeout self |}.

(** A session that answers every call the same way. *)
Definition always (o : outcome) : session := fun _ _ => o.

(** The bytes of a body given as text. *)
Definition body_of (s : string) : list byte := list_byte_of_string s.

(** Timeouts are [Timeout]; a refused connection and a failed name lookup
    are [requests]' [ConnectionError]. *)
Definition transport_failure (e : exn) : bool :=
  isinstance e Timeout || isinstance e ConnectionError.

(** [s] between double quotes. *)
Definition quoted (s : string) : string :=
  String (ascii_of_nat 34) (s ++ String (ascii_of_nat 34) EmptyString).

(** The text [json.dumps] gives for a value whose strings need no
    escaping; used to build the bodies of example responses. *)
Fixpoint dumps (v : pyval) : string :=
  match v with
  | PNone => "null"
  | PBool true => "true"
  | PBool false => "false"
  | PInt n => NilZero.string_of_int (Z.to_int n)
  | PFloat r => r
  | PStr s => quoted s
  | PList xs => "[" ++ String.concat ", " (map dumps xs) ++ "]"
  | PDict kvs =>
      "{" ++ String.concat ", "
               (map (fun kv => match kv with
                               | (k, x) => quoted k ++ ": " ++ dumps x
                               end) kvs) ++ "}"
  end.

(** A response whose body is the JSON text of [v]. *)
Definition json_response (status : Z) (v : pyval) : response :=
  {| status_code := status;
     content := body_of (dumps v);
     text := dumps v;
     json := Ok v |}.

(** What [response.json()] raises on a body that is not JSON. *)
Definition json_decode_error : exn :=
  builtin_error JSONDecodeError [FLit "Expecting value: line 1 column 1 (char 0)"].

(** A response without a body. *)
Definition empty_response (status : Z) : response :=
  {| status_code := status; content := []; text := EmptyString;
     json := Raise json_decode_error |}.

(** A response whose body is text that is not JSON. *)
Definition text_response (status : Z) (body : string) : response :=
  {| status_code := status; content := body_of body; text := body;
     json := Raise json_decode_error |}.

(** A client for a gateway on the local host, with the default timeout. *)
Definition gateway_at (s : session) : ThroomClient :=
  ThroomClient_init s "http://localhost:9000/" None.

Definition read_timeout : exn :=
  builtin_error ReadTimeout [FLit "HTTPConnectionPool(host='localhost', port=9000): Read timed out. (read timeout=120)"].

Definition connection_refused : exn :=
  builtin_error ConnectionError [FLit "[Errno 111] Connection refused"].

(** The error [query_row] raises on an empty result. *)
Definition empty_result_error : exn :=
  builtin_error ValueError [FLit "No rows returned"].

(** The call [query] passes to the session. *)
Definition query_request (self : DBClient) (q : string) (args : list pyval)
  : http_request :=
  request_of (DBClient_client self) "POST"
    ("/api/v1/clusters/" ++ DBClient_cluster_id self ++ "/db/query")
    (PDict [("query", PStr q); ("args", PList args)]) PNone.

Definition users_db (s : session) : DBClient := db (cluster (gateway_at s) "c1").

Definition two_rows : list pyval :=
  [PDict [("id", PInt 1); ("name", PStr "ada")];
   PDict [("id", PInt 2); ("name", PStr "bob")]].

(** The error [subscribe] raises. *)
Definition not_implemented_error : exn :=
  builtin_error NotImplementedError
    [FLit "Subscribe not yet implemented in SDK - use direct Kafka consumer"].

(** The call [publish] passes to the session, for a given [message]
    field. *)
Definition publish_request (self : QueueClient) (topic : string) (ints : list pyval)
  : http_request :=
  request_of (QueueClient_client self) "POST"
    ("/api/v1/clusters/" ++ QueueClient_cluster_id self ++ "/queue/publish")
    (PDict [("topic", PStr topic); ("message", PList ints)]) PNone.

(** The integer a byte stands for. *)
Definition byte_value (b : byte) : Z := Z.of_N (Byte.to_N b).

(** What the [limit] query parameter is to be, as the specification words
    it: nothing without a filter or with a limit that is unset or zero,
    the limit itself when it is positive. *)
Inductive limit_param : option ActivityFilters -> pyval -> Prop :=
| limit_no_filter : limit_param None PNone
| limit_unset : limit_param (Some {| ActivityFilters_limit := None |}) PNone
| limit_zero : limit_param (Some {| ActivityFilters_limit := Some 0 |}) PNone
| limit_positive (n : Z) :
    0 < n ->
    limit_param (Some {| ActivityFilters_limit := Some n |}) (PDict [("limit", PInt n)]).

(** The optional fields of a config, by name. *)
Definition optional_fields (config : ServiceConfig) : list (string * option string) :=
  [("host", ServiceConfig_host config);
   ("username", ServiceConfig_username config);
   ("password", ServiceConfig_password config);
   ("database", ServiceConfig_database config)].

(** The [services] object of the body of the last call in a log. *)
Definition services_sent (log : list http_request) : list (string * pyval) :=
  match rev log with
  | req :: _ =>
      match req_json req with
      | PDict body =>
          match dict_lookup "services" body with
          | Some (PDict sent) => sent
          | _ => []
          end
      | _ => []
      end
  | [] => []
  end.

(** What C1 asks of the entries sent for [services]: each is an object
    that holds no key for an optional field left unset, and no [None]. *)
Definition omits_unset_fields (services : list (string * ServiceConfig))
  (sent : list (string * pyval)) : Prop :=
  forall name config,
    In (name, config) services ->
    exists kvs,
      dict_lookup name sent = Some (PDict kvs) /\
      (forall k, In (k, None) (optional_fields config) -> dict_lookup k kvs = None) /\
      (forall k, dict_lookup k kvs <> Some PNone).

(** What the code sends instead: all six keys, in the order of the dict
    display, an unset optional field carrying [None]. *)
Definition carries_all_fields (services : list (string * ServiceConfig))
  (sent : list (string * pyval)) : Prop :=
  dict_keys sent = dict_keys services /\
  forall name config,
    In (name, config) services ->
    exists kvs,
      dict_lookup name sent = Some (PDict kvs) /\
      dict_keys kvs = ["type"; "port"; "host"; "username"; "password"; "database"] /\
      dict_lookup "type" kvs = Some (PStr (ServiceConfig_type config)) /\
      dict_lookup "port" kvs = Some (PInt (ServiceConfig_port config)) /\
      (forall k s, In (k, Some s) (optional_fields config) ->
                   dict_lookup k kvs = Some (PStr s)) /\
      (forall k, In (k, None) (optional_fields config) ->
                 dict_lookup k kvs = Some PNone).

Definition redis_config : ServiceConfig :=
  {| ServiceConfig_type := "redis"; ServiceConfig_provision := true;
     ServiceConfig_port := 6380;
     ServiceConfig_host := None; ServiceConfig_username := None;
     ServiceConfig_password := None; ServiceConfig_database := None |}.

Definition postgres_config : ServiceConfig :=
  {| ServiceConfig_type := "postgres"; ServiceConfig_provision := false;
     ServiceConfig_port := 5432;
     ServiceConfig_host := Some "db.internal"; ServiceConfig_username := Some "app";
     ServiceConfig_password := Some "secret"; ServiceConfig_database := Some "orders" |}.

Definition created : response :=
  json_response 201 (PDict [("cluster_id", PStr "c1"); ("message", PStr "created")]).

Definition two_services : list (string * ServiceConfig) :=
  [("redis-1", redis_config); ("postgres-1", postgres_config)].

(** The value of member [k] of a JSON object, [None] when it is absent. *)
Definition member (v : pyval) (k : string) : pyval :=
  match v with
  | PDict kvs => match dict_lookup k kvs with Some x => x | None => PNone end
  | _ => PNone
  end.

(** A service object of the gateway: a JSON object that has the five
    members every service has and, beyond them, at most the three optional
    ones. *)
Definition is_service_object (s : pyval) : bool :=
  match s with
  | PDict kvs =>
      forallb (has_key kvs) ["name"; "type"; "host"; "port"; "healthy"] &&
      forallb (fun k => mem_string k ["name"; "type"; "host"; "port"; "healthy";
                                      "username"; "database"; "container_id"])
        (dict_keys kvs)
  | _ => false
  end.

(** The record [svc] holds, field by field, the members of [s]. *)
Definition parsed_from (s : pyval) (svc : Service) : Prop :=
  Service_name svc = member s "name" /\
  Service_type svc = member s "type" /\
  Service_host svc = member s "host" /\
  Service_port svc = member s "port" /\
  Service_healthy svc = member s "healthy" /\
  Service_username svc = member s "username" /\
  Service_database svc = member s "database" /\
  Service_container_id svc = member s "container_id".

(** The service objects of a cluster object: a JSON object with [id],
    [name] and [created_at] whose [services] member, when present, is an
    array of service objects. *)
Definition cluster_service_objects (c : pyval) : option (list pyval) :=
  match c with
  | PDict kvs =>
      if forallb (has_key kvs) ["id"; "name"; "created_at"]
      then match dict_lookup "services" kvs with
           | Some (PList ss) => if forallb is_service_object ss then Some ss else None
           | Some _ => None
           | None => Some []
           end
      else None
  | _ => None
  end.

(** A response with status below 400 whose body decodes to [v]. *)
Definition delivers (r : response) (v : pyval) : Prop :=
  status_code r < 400 /\ content r <> [] /\ json r = Ok v.

(** A cluster record that keeps the services of the object it was built
    from: as many, in the same order. *)
Definition keeps_services (c : pyval) (cl : Cluster) : Prop :=
  exists ss,
    cluster_service_objects c = Some ss /\
    List.length (Cluster_services cl) = List.length ss /\
    Forall2 parsed_from ss (Cluster_services cl).

Definition redis_service : pyval :=
  PDict [("name", PStr "redis-1"); ("type", PStr "redis"); ("host", PStr "localhost");
         ("port", PInt 6380); ("healthy", PBool true);
         ("container_id", PStr "3f2a")].

Definition postgres_service : pyval :=
  PDict [("name", PStr "postgres-1"); ("type", PStr "postgres");
         ("host", PStr "db.internal"); ("port", PInt 5432); ("healthy", PBool false);
         ("username", PStr "app"); ("database", PStr "orders")].

Definition demo_cluster : pyval :=
  PDict [("id", PStr "c1"); ("name", PStr "demo");
         ("created_at", PStr "2025-01-01T00:00:00Z");
         ("services", PList [redis_service; postgres_service])].

Definition bare_cluster : pyval :=
  PDict [("id", PStr "c2"); ("name", PStr "bare");
         ("created_at", PStr "2025-01-02T00:00:00Z")].

(** A gateway that serves the collection and, on any other path, the
    cluster [demo_cluster]. *)
Definition clusters_gateway : session :=
  fun _ req =>
    if (req_url req =? "http://localhost:9000/api/v1/clusters")%string
    then Responded (json_response 200 (PList [demo_cluster; bare_cluster]))
    else Responded (json_response 200 demo_cluster).

(** ** Vocabulary of the further properties *)

(** The last character of [s] is a slash. *)
Fixpoint ends_with_slash (s : string) : bool :=
  match s with
  | EmptyString => false
  | String c EmptyString => (c =? "/")%char
  | String _ s' => ends_with_slash s'
  end.

(** [n] slashes. *)
Fixpoint slashes (n : nat) : string :=
  match n with
  | O => EmptyString
  | S n' => String "/" (slashes n')
  end.

(** A method body that, from any log, makes exactly one call: with the
    client's timeout, to a URL under the client's [base_url] and the
    prefix [/api/v1/]. *)
Definition one_call {A : Type} (c : ThroomClient) (m : M A) : Prop :=
  forall log,
    exists req,
      snd (m log) = (log ++ [req])%list /\
      req_timeout req = timeout c /\
      exists rest, req_url req = (base_url c ++ "/api/v1/" ++ rest)%string.

(** The object [_request] reads an error message from: the decoded body,
    or the empty object when the response has no body. *)
Definition error_body (r : response) (kvs : list (string * pyval)) : Prop :=
  (content r = [] /\ kvs = []) \/ (content r <> [] /\ json r = Ok (PDict kvs)).

(** The first true value among the [message] member, the [error] member
    and the text of the response; the text when none is true. *)
Definition best_message (r : response) (kvs : list (string * pyval)) : pyval :=
  py_or (member (PDict kvs) "message")
    (py_or (member (PDict kvs) "error") (PStr (text r))).

(** The [ThroomAPIError] for a response and the object of its body. *)
Definition api_error_for (r : response) (kvs : list (string * pyval)) : exn :=
  mkThroomAPIError
    [FLit "Throome API Error ("; FVal (PInt (status_code r)); FLit "): ";
     FVal (best_message r kvs)]
    (status_code r).

(** The [ThroomConnectionError] [_request] raises for a failure [e] of
    the session that is a [RequestException]. *)
Definition connection_error_for (e : exn) : exn :=
  mkThroomConnectionError
    [FLit (if isinstance e Timeout then "Request timed out: " else "Connection error: ");
     FExn e] e.

(** Every operation of the root client and of the clients scoped from it
    that goes through [_request] raises [err] from the log [log]. *)
Definition every_operation_raises (c : ThroomClient) (log : list http_request)
  (err : exn) : Prop :=
  fst (health c log) = Raise err /\
  fst (list_clusters c log) = Raise err /\
  (forall id, fst (get_cluster c id log) = Raise err) /\
  (forall name services, fst (create_cluster c name services log) = Raise err) /\
  (forall id, fst (delete_cluster c id log) = Raise err) /\
  (forall filters, fst (get_activity c filters log) = Raise err) /\
  (forall id, fst (ClusterClient_health (cluster c id) log) = Raise err) /\
  (forall id, fst (metrics (cluster c id) log) = Raise err) /\
  (forall id filters,
     fst (ClusterClient_get_activity (cluster c id) filters log) = Raise err) /\
  (forall id svc, fst (get_info (service (cluster c id) svc) log) = Raise err) /\
  (forall id svc filters,
     fst (ServiceClient_get_activity (service (cluster c id) svc) filters log)
     = Raise err) /\
  (forall id q args, fst (execute (db (cluster c id)) q args log) = Raise err) /\
  (forall id q args, fst (query (db (cluster c id)) q args log) = Raise err) /\
  (forall id q args, fst (query_row (db (cluster c id)) q args log) = Raise err) /\
  (forall id key, fst (CacheClient_get (cache (cluster c id)) key log) = Raise err) /\
  (forall id key value expiration,
     fst (CacheClient_set (cache (cluster c id)) key value expiration log)
     = Raise err) /\
  (forall id key, fst (CacheClient_delete (cache (cluster c id)) key log) = Raise err) /\
  (forall id topic message,
     fst (publish (queue (cluster c id)) topic message log) = Raise err).

(** [options.tail] and [options.timestamps], nothing and false without
    options. *)
Definition tail_of (options : option LogOptions) : option Z :=
  match options with Some o => LogOptions_tail o | None => None end.

Definition timestamps_of (options : option LogOptions) : bool :=
  match options with Some o => LogOptions_timestamps o | None => false end.

(** The query parameters of a log request, as a user reads them off the
    options: [tail] when a tail is given and is not zero, then
    [timestamps], as the text [true], when the flag is set. *)
Definition log_params (options : option LogOptions) : list (string * pyval) :=
  (match tail_of options with
   | Some n => if n =? 0 then [] else [("tail", PInt n)]
   | None => []
   end ++
   (if timestamps_of options then [("timestamps", PStr "true")] else []))%list.

(** The call [get_logs] passes to the session, for given query
    parameters. *)
Definition logs_request (sc : ServiceClient) (ps : list (string * pyval))
  : http_request :=
  {| req_method := "GET";
     req_url := (base_url (ServiceClient_client sc) ++ "/api/v1/clusters/"
                 ++ ServiceClient_cluster_id sc ++ "/services/"
                 ++ ServiceClient_service_name sc ++ "/logs")%string;
     req_json := PNone;
     req_params := PDict ps;
     req_timeout := timeout (ServiceClient_client sc) |}.

(** What [raise_for_status] raises. *)
Definition http_error : exn := builtin_error HTTPError [].

(** The call [CacheClient.set] passes to the session, for a given
    payload. *)
Definition cache_set_request (ca : CacheClient) (payload : list (string * pyval))
  : http_request :=
  request_of (CacheClient_client ca) "POST"
    ("/api/v1/clusters/" ++ CacheClient_cluster_id ca ++ "/cache/set")
    (PDict payload) PNone.

(** The [TypeError] of the interpreter. *)
Definition type_error : exn := builtin_error TypeError [].

(** A service-health object of the gateway: a JSON object with the
    members [healthy] and [response_time] and, beyond them, at most
    [error_message]. *)
Definition is_health_object (v : pyval) : bool :=
  match v with
  | PDict kvs =>
      forallb (has_key kvs) ["healthy"; "response_time"] &&
      forallb (fun k => mem_string k ["healthy"; "response_time"; "error_message"])
        (dict_keys kvs)
  | _ => false
  end.

(** The record [h] holds, field by field, the members of [v]. *)
Definition health_parsed_from (v : pyval) (h : ServiceHealth) : Prop :=
  ServiceHealth_healthy h = member v "healthy" /\
  ServiceHealth_response_time h = member v "response_time" /\
  ServiceHealth_error_message h = member v "error_message".

(** An activity-log object of the gateway: a JSON object with the eleven
    members every entry has and, beyond them, at most [error] and
    [client_info]. *)
Definition is_activity_object (v : pyval) : bool :=
  match v with
  | PDict kvs =>
      forallb (has_key kvs)
        ["id"; "timestamp"; "cluster_id"; "service_name"; "service_type";
         "operation"; "command"; "parameters"; "duration"; "status"; "response"] &&
      forallb (fun k => mem_string k
                          ["id"; "timestamp"; "cluster_id"; "service_name";
                           "service_type"; "operation"; "command"; "parameters";
                           "duration"; "status"; "response"; "error"; "client_info"])
        (dict_keys kvs)
  | _ => false
  end.

(** The record [a] holds, field by field, the members of [v]. *)
Definition log_parsed_from (v : pyval) (a : ActivityLog) : Prop :=
  ActivityLog_id a = member v "id" /\
  ActivityLog_timestamp a = member v "timestamp" /\
  ActivityLog_cluster_id a = member v "cluster_id" /\
  ActivityLog_service_name a = member v "service_name" /\
  ActivityLog_service_type a = member v "service_type" /\
  ActivityLog_operation a = member v "operation" /\
  ActivityLog_command a = member v "command" /\
  ActivityLog_parameters a = member v "parameters" /\
  ActivityLog_duration a = member v "duration" /\
  ActivityLog_status a = member v "status" /\
  ActivityLog_response a = member v "response" /\
  ActivityLog_error a = member v "error" /\
  ActivityLog_client_info a = member v "client_info".

(** The field names of the records that [health], [metrics], [get_info]
    and [create_cluster] build from a whole body. *)
Definition record_fields : list string :=
  ["status"; "timestamp";
   "requests"; "errors"; "avg_response_ms"; "p95_response_ms"; "active_services";
   "name"; "type"; "host"; "port"; "healthy"; "container_id";
   "cluster_id"; "message"].

(** A body for [ClusterClient.health], and its service entries. *)
Definition health_entries : list (string * pyval) :=
  [("redis-1", PDict [("healthy", PBool true); ("response_time", PInt 3)]);
   ("postgres-1",
    PDict [("healthy", PBool false); ("response_time", PInt 0);
           ("error_message", PStr "connection refused")])].

Definition health_body : pyval :=
  PDict [("cluster_id", PStr "c1"); ("services", PDict health_entries)].

(** An activity entry and a body for [get_activity]. *)
Definition activity_entry (id status : string) : pyval :=
  PDict [("id", PStr id); ("timestamp", PStr "2025-01-01T00:00:00Z");
         ("cluster_id", PStr "c1"); ("service_name", PStr "redis-1");
         ("service_type", PStr "redis"); ("operation", PStr "GET");
         ("command", PStr "GET k"); ("parameters", PList [PStr "k"]);
         ("duration", PInt 2); ("status", PStr status); ("response", PStr "v")].

Definition activity_body : list pyval :=
  [activity_entry "a2" "success"; activity_entry "a1" "error"].

(** A health body of a newer gateway, with a member the SDK's record has
    no field for. *)
Definition health_with_version : list (string * pyval) :=
  [("status", PStr "ok"); ("timestamp", PInt 1700000000); ("version", PStr "1.2.0")].

(** * Properties *)

Ltac handlers :=
  repeat (match goal with
          | |- context [isinstance ?e ?c] => destruct (isinstance e c); cbn
          end);
  try reflexivity.

Ltac run_request :=
  unfold _request, try_except, bind, session_request, lift, ret, raise, request_of in *;
  cbn [fst snd] in *.

(** ** Exception classes *)

(** Six steps reach every base class: a seventh finds nothing more. *)
Lemma issubclass_fuel_enough (c d : exn_class) :
  issubclass_upto 7 c d = issubclass c d.
Proof. destruct c, d; reflexivity. Qed.

Lemma issubclass_refl (c : exn_class) : issubclass c c = true.
Proof. destruct c; reflexivity. Qed.

(** ** The transport wrapper *)

Section Transport.

Variable self : ThroomClient.
Variables method path : string.
Variables data params : pyval.
Variable log : list http_request.

Let req := request_of self method path data params.

(** Whatever the outcome, [_request] calls the session exactly once. *)
Lemma request_logs_once :
  snd (_request self method path data params log) = (log ++ [req])%list.
Proof.
  subst req. run_request.
  destruct (session_ self log _) as [r | e]; cbn; [|handlers].
  destruct (400 <=? status_code r); cbn.
  - destruct (if nonempty (content r) then json r else Ok (PDict []))
      as [error_data | e]; cbn; [|handlers].
    destruct (py_get error_data "message" PNone) as [m | e]; cbn; [|handlers].
    destruct (truthy m); cbn; [handlers|].
    destruct (py_get error_data "error" PNone); cbn; handlers.
  - destruct (nonempty (content r)); cbn; [|reflexivity].
    destruct (json r); cbn; handlers.
Qed.

(** A failure of the session that is a [RequestException] comes out as a
    [ThroomConnectionError] raised while handling it. *)
Lemma request_wraps_request_exception (e : exn) :
  session_ self log req = Failed e ->
  isinstance e RequestException = true ->
  fst (_request self method path data params log) =
  Raise (mkThroomConnectionError
           [FLit (if isinstance e Timeout
                  then "Request timed out: " else "Connection error: ");
            FExn e] e).
Proof.
  subst req. intros Hs He. run_request. rewrite Hs. cbn.
  destruct (isinstance e Timeout); cbn; [reflexivity|].
  rewrite He. reflexivity.
Qed.

(** Any other failure of the session propagates as it is. *)
Lemma request_propagates_other (e : exn) :
  session_ self log req = Failed e ->
  isinstance e RequestException = false ->
  isinstance e Timeout = false ->
  fst (_request self method path data params log) = Raise e.
Proof.
  subst req. intros Hs He Ht. run_request. rewrite Hs. cbn.
  rewrite Ht, He. reflexivity.
Qed.

(** Status 400 or more, with an empty body or a body that decodes to an
    object: a [ThroomAPIError] with the status and the first true value
    among the object's [message], its [error] and the response text. *)
Lemma request_api_error (r : response) (kvs : list (string * pyval)) :
  session_ self log req = Responded r ->
  400 <= status_code r ->
  (if nonempty (content r) then json r else Ok (PDict [])) = Ok (PDict kvs) ->
  fst (_request self method path data params log) =
  Raise (mkThroomAPIError
           [FLit "Throome API Error ("; FVal (PInt (status_code r)); FLit "): ";
            FVal (py_or (match dict_lookup "message" kvs with
                         | Some m => m | None => PNone end)
                    (py_or (match dict_lookup "error" kvs with
                            | Some m => m | None => PNone end)
                       (PStr (text r))))]
           (status_code r)).
Proof.
  subst req. intros Hs Hst Hj. run_request. rewrite Hs. cbn.
  apply Z.leb_le in Hst. rewrite Hst. rewrite Hj. cbn.
  unfold py_or.
  destruct (dict_lookup "message" kvs) as [m|]; cbn.
  - destruct (truthy m); cbn; [reflexivity|].
    destruct (dict_lookup "error" kvs); reflexivity.
  - destruct (dict_lookup "error" kvs); reflexivity.
Qed.

(** Status 400 or more with a body that [response.json()] cannot decode:
    the decoder's exception leaves the [try] block before any
    [ThroomAPIError] is built; it is wrapped when it is a
    [RequestException] and propagates otherwise. *)
Lemma request_error_undecodable (r : response) (e : exn) :
  session_ self log req = Responded r ->
  400 <= status_code r ->
  content r <> [] ->
  json r = Raise e ->
  isinstance e Timeout = false ->
  fst (_request self method path data params log) =
  Raise (if isinstance e RequestException
         then mkThroomConnectionError [FLit "Connection error: "; FExn e] e
         else e).
Proof.
  subst req. intros Hs Hst Hc Hj Ht. run_request. rewrite Hs. cbn.
  apply Z.leb_le in Hst. rewrite Hst.
  destruct (content r); [congruence|]. cbn. rewrite Hj. cbn.
  rewrite Ht. destruct (isinstance e RequestException); reflexivity.
Qed.

(** Status 400 or more with a body that decodes to something other than an
    object: [error_data.get] raises [AttributeError], which no clause of
    [_request] handles. *)
Lemma request_error_not_an_object (r : response) (v : pyval) :
  session_ self log req = Responded r ->
  400 <= status_code r ->
  content r <> [] ->
  json r = Ok v ->
  (forall kvs, v <> PDict kvs) ->
  fst (_request self method path data params log) =
  Raise (builtin_error AttributeError []).
Proof.
  subst req. intros Hs Hst Hc Hj Hv. run_request. rewrite Hs. cbn.
  apply Z.leb_le in Hst. rewrite Hst.
  destruct (content r); [congruence|]. cbn. rewrite Hj. cbn.
  destruct v; try reflexivity. exfalso. eapply Hv. reflexivity.
Qed.

End Transport.

(** A method that only post-processes what [_request] returned leaves
    the log as [_request] left it. *)
Lemma bind_lift_log {A B : Type} (m : M A) (f : A -> result B) (log : list http_request) :
  snd ((x <- m ;; lift (f x)) log) = snd (m log).
Proof.
  unfold bind, lift. destruct (m log) as [[a | e] log']; reflexivity.
Qed.

Lemma bind_ret_log {A B : Type} (m : M A) (f : A -> B) (log : list http_request) :
  snd ((x <- m ;; ret (f x)) log) = snd (m log).
Proof.
  unfold bind, ret. destruct (m log) as [[a | e] log']; reflexivity.
Qed.

Lemma transport_failure_RequestException (e : exn) :
  transport_failure e = true -> isinstance e RequestException = true.
Proof.
  destruct e as [c m s ctx]. unfold transport_failure, isinstance. cbn [exn_cls].
  destruct c; vm_compute; congruence.
Qed.

Lemma ThroomConnectionError_classes (m : list fpart) (cause : exn) :
  isinstance (mkThroomConnectionError m cause) ThroomError = true /\
  isinstance (mkThroomConnectionError m cause) ThroomAPIError = false /\
  isinstance (mkThroomConnectionError m cause) RequestException = false.
Proof. repeat split. Qed.

Lemma ThroomAPIError_classes (m : list fpart) (status : Z) :
  isinstance (mkThroomAPIError m status) ThroomError = true /\
  isinstance (mkThroomAPIError m status) ThroomConnectionError = false /\
  isinstance (mkThroomAPIError m status) RequestException = false.
Proof. repeat split. Qed.

(** The text of a [ThroomAPIError] starts with a fixed prefix, so it is
    never empty, however values are printed. *)
Lemma api_error_text_nonempty (str_val : pyval -> string) (str_exn : exn -> string)
  (status : Z) (message : pyval) :
  render str_val str_exn
    [FLit "Throome API Error ("; FVal (PInt status); FLit "): "; FVal message]
  <> EmptyString.
Proof. cbn. discriminate. Qed.

(** C9. A response with status below 400: with an empty body [_request]
    returns [None] and does not raise; with a body that decodes to [v] it
    returns [v] itself. *)
Theorem request_success_result (self : ThroomClient) (method path : string)
  (data params : pyval) (log : list http_request) (r : response) :
  session_ self log (request_of self method path data params) = Responded r ->
  status_code r < 400 ->
  (content r = [] ->
   fst (_request self method path data params log) = Ok PNone) /\
  (forall v, content r <> [] -> json r = Ok v ->
   fst (_request self method path data params log) = Ok v).
Proof.
  intros Hs Hst. apply Z.leb_gt in Hst. split.
  - intros Hc. run_request. rewrite Hs. cbn. rewrite Hst, Hc. reflexivity.
  - intros v Hc Hj. run_request. rewrite Hs. cbn. rewrite Hst.
    destruct (content r); [congruence|]. cbn. rewrite Hj. reflexivity.
Qed.

Example dumps_object :
  text (json_response 200 (PDict [("rows", PList [PDict [("n", PInt 1)]])]))
  = String.concat (String (ascii_of_nat 34) EmptyString)
      ["{"; "rows"; ": [{"; "n"; ": 1}]}"].
Proof. reflexivity. Qed.

Example gateway_at_base_url (s : session) :
  base_url (gateway_at s) = "http://localhost:9000" /\ timeout (gateway_at s) = 120.
Proof. split; reflexivity. Qed.

Lemma request_success_result_witness :
  fst (_request (gateway_at (always (Responded (json_response 200 (PList [PInt 1; PInt 2])))))
         "GET" "/api/v1/health" PNone PNone [])
  = Ok (PList [PInt 1; PInt 2]).
Proof.
  refine (proj2 (request_success_result _ "GET" "/api/v1/health" PNone PNone []
                   (json_response 200 (PList [PInt 1; PInt 2])) _ _) _ _ _).
  - reflexivity.
  - reflexivity.
  - discriminate.
  - reflexivity.
Defined.

(** The other branch of C9 at a concrete input: [DELETE] answered 204. *)
Example delete_cluster_no_content :
  delete_cluster (gateway_at (always (Responded (empty_response 204)))) "c1" []
  = (Ok tt,
     [{| req_method := "DELETE";
         req_url := "http://localhost:9000/api/v1/clusters/c1";
         req_json := PNone; req_params := PNone; req_timeout := 120 |}]).
Proof. reflexivity. Qed.

(** C3. When the session call fails with a timeout or a connection
    failure, [_request] raises a [ThroomConnectionError] whose context and
    message carry that failure; the error is a [ThroomError], is not a
    [ThroomAPIError] and is none of [requests]' own exceptions. *)
Theorem transport_failure_raises_connection_error (self : ThroomClient)
  (method path : string) (data params : pyval) (log : list http_request) (e : exn) :
  session_ self log (request_of self method path data params) = Failed e ->
  transport_failure e = true ->
  exists err,
    fst (_request self method path data params log) = Raise err /\
    exn_cls err = ThroomConnectionError /\
    exn_context err = Some e /\
    In (FExn e) (exn_message err) /\
    exn_status_code err = None /\
    isinstance err ThroomError = true /\
    isinstance err ThroomAPIError = false /\
    isinstance err RequestException = false.
Proof.
  intros Hs Ht.
  pose proof (transport_failure_RequestException e Ht) as He.
  eexists. split.
  - apply request_wraps_request_exception; eassumption.
  - cbn. repeat split; auto.
Qed.

Lemma transport_failure_raises_connection_error_witness :
  exists err,
    fst (_request (gateway_at (always (Failed read_timeout)))
           "GET" "/api/v1/health" PNone PNone []) = Raise err /\
    exn_cls err = ThroomConnectionError /\
    exn_context err = Some read_timeout /\
    In (FExn read_timeout) (exn_message err) /\
    exn_status_code err = None /\
    isinstance err ThroomError = true /\
    isinstance err ThroomAPIError = false /\
    isinstance err RequestException = false.
Proof.
  apply (transport_failure_raises_connection_error
           (gateway_at (always (Failed read_timeout)))
           "GET" "/api/v1/health" PNone PNone [] read_timeout).
  - reflexivity.
  - reflexivity.
Defined.

Example request_timed_out :
  fst (_request (gateway_at (always (Failed read_timeout)))
         "GET" "/api/v1/health" PNone PNone [])
  = Raise (mkThroomConnectionError
             [FLit "Request timed out: "; FExn read_timeout] read_timeout).
Proof. reflexivity. Qed.

Example request_refused :
  fst (_request (gateway_at (always (Failed connection_refused)))
         "GET" "/api/v1/health" PNone PNone [])
  = Raise (mkThroomConnectionError
             [FLit "Connection error: "; FExn connection_refused] connection_refused).
Proof. reflexivity. Qed.

(** [get_logs], which does not go through [_request], wraps the same
    failures. *)
Lemma get_logs_wraps_request_exception (self : ServiceClient)
  (options : option LogOptions) (log : list http_request) (e : exn) :
  (forall req, session_ (ServiceClient_client self) log req = Failed e) ->
  isinstance e RequestException = true ->
  exists req,
    get_logs self options log =
    (Raise (mkThroomConnectionError [FLit "Failed to get logs: "; FExn e] e),
     (log ++ [req])%list).
Proof.
  intros Hs He. unfold get_logs, try_except, bind, session_request.
  rewrite Hs. cbn. rewrite He. eexists. reflexivity.
Qed.

(** C2, where the code and the claim part.  [get_cluster] answered 404
    with a body that is text and not JSON: decoding the body raises inside
    the [try] block, the clause for [RequestException] takes it, and the
    caller sees a [ThroomConnectionError] without a status code where the
    claim has a [ThroomAPIError] with status 404 and the text as message. *)
Theorem get_cluster_404_text_body :
  let self := gateway_at (always (Responded (text_response 404 "404 page not found"))) in
  let err := mkThroomConnectionError
               [FLit "Connection error: "; FExn json_decode_error] json_decode_error in
  fst (get_cluster self "missing-id" []) = Raise err /\
  isinstance err ThroomAPIError = false /\
  exn_status_code err = None.
Proof. repeat split. Qed.

(** The same 404 with a JSON object as body is reported as the claim says. *)
Example get_cluster_404_json_body :
  let self := gateway_at (always (Responded
                (json_response 404 (PDict [("error", PStr "cluster not found")])))) in
  fst (get_cluster self "missing-id" []) =
  Raise (mkThroomAPIError
           [FLit "Throome API Error ("; FVal (PInt 404); FLit "): ";
            FVal (PStr "cluster not found")] 404).
Proof. reflexivity. Qed.

(** With a decoder that raises the interpreter's own [JSONDecodeError]
    (a [ValueError]), that exception reaches the caller unwrapped. *)
Example get_cluster_404_text_body_plain_decoder :
  let e := builtin_error StdJSONDecodeError [] in
  let r := {| status_code := 404; content := body_of "404 page not found";
              text := "404 page not found"; json := Raise e |} in
  fst (get_cluster (gateway_at (always (Responded r))) "missing-id" []) = Raise e.
Proof. reflexivity. Qed.

(** ** Database and queue clients *)

Lemma query_logs_once (self : DBClient) (q : string) (args : list pyval)
  (log : list http_request) :
  snd (query self q args log) = (log ++ [query_request self q args])%list.
Proof.
  unfold query. rewrite bind_lift_log. apply request_logs_once.
Qed.

(** C4. When [query] returns a list of rows, having made its one call:
    [query_row] makes no further call; it raises the empty-result error, a
    [ValueError] without status code, exactly when the list is empty; and
    otherwise it returns the first row as it is. *)
Theorem query_row_first_or_empty (self : DBClient) (q : string) (args : list pyval)
  (log log' : list http_request) (rows : list pyval) :
  query self q args log = (Ok (PList rows), log') ->
  log' = (log ++ [query_request self q args])%list /\
  snd (query_row self q args log) = log' /\
  (fst (query_row self q args log) = Raise empty_result_error <-> rows = []) /\
  ((exists e, fst (query_row self q args log) = Raise e) <-> rows = []) /\
  exn_cls empty_result_error = ValueError /\
  exn_status_code empty_result_error = None /\
  (forall r rest, rows = r :: rest -> fst (query_row self q args log) = Ok r).
Proof.
  intros Hq.
  assert (Hlog : log' = (log ++ [query_request self q args])%list).
  { rewrite <- query_logs_once. rewrite Hq. reflexivity. }
  split; [exact Hlog|].
  unfold query_row, bind. rewrite Hq.
  destruct rows as [| r rest]; cbn.
  - split; [reflexivity|]. split; [tauto|]. split.
    + split; [reflexivity | intros _; eexists; reflexivity].
    + repeat (split; [reflexivity|]). intros r rest Heq. discriminate Heq.
  - split; [reflexivity|]. split; [split; discriminate|]. split.
    + split; [intros [e He]; discriminate He | discriminate].
    + repeat (split; [reflexivity|]). intros r' rest' Heq.
      injection Heq as Hr _. rewrite Hr. reflexivity.
Qed.

Lemma query_row_first_or_empty_witness :
  let self := users_db (always (Responded (json_response 200 (PDict [("rows", PList two_rows)])))) in
  snd (query_row self "SELECT id, name FROM users" [] [])
  = [query_request self "SELECT id, name FROM users" []] /\
  fst (query_row self "SELECT id, name FROM users" [] [])
  = Ok (PDict [("id", PInt 1); ("name", PStr "ada")]).
Proof.
  cbv zeta.
  pose proof (query_row_first_or_empty
                (users_db (always (Responded (json_response 200 (PDict [("rows", PList two_rows)])))))
                "SELECT id, name FROM users" [] [] _ two_rows eq_refl)
    as (Hlog & Hsnd & _ & _ & _ & _ & Hfirst).
  split.
  - exact Hsnd.
  - exact (Hfirst _ _ eq_refl).
Defined.

Example query_row_no_rows :
  let self := users_db (always (Responded (json_response 200 (PDict [("rows", PList [])])))) in
  query_row self "SELECT 1 WHERE false" [] []
  = (Raise empty_result_error, [query_request self "SELECT 1 WHERE false" []]).
Proof. reflexivity. Qed.

(** A [rows] member that is [null] is false as well. *)
Example query_row_null_rows :
  let self := users_db (always (Responded (json_response 200 (PDict [("rows", PNone)])))) in
  fst (query_row self "SELECT 1 WHERE false" [] []) = Raise empty_result_error.
Proof. reflexivity. Qed.

(** C8. Whatever the client, the topic, the handler and the calls made so
    far, [subscribe] raises a [NotImplementedError] and leaves the log of
    calls as it was. *)
Theorem subscribe_not_implemented (self : QueueClient) (topic : string)
  (handler : pyval) (log : list http_request) :
  subscribe self topic handler log = (Raise not_implemented_error, log) /\
  isinstance not_implemented_error NotImplementedError = true.
Proof. split; reflexivity. Qed.

(** C10. The empty-result error of [query_row] and the error of
    [subscribe] are not instances of [ThroomError], the base of
    [ThroomAPIError] and [ThroomConnectionError]: a handler for
    [ThroomError] around either call lets the error through. *)
Theorem local_errors_not_ThroomError (d : DBClient) (qc : QueueClient)
  (q topic : string) (args : list pyval) (handler : pyval)
  (log log' : list http_request)
  (h1 : exn -> M pyval) (h2 : exn -> M unit) :
  query d q args log = (Ok (PList []), log') ->
  (query_row d q args log = (Raise empty_result_error, log') /\
   isinstance empty_result_error ThroomError = false /\
   try_except (query_row d q args) [(ThroomError, h1)] log
   = (Raise empty_result_error, log')) /\
  (subscribe qc topic handler log = (Raise not_implemented_error, log) /\
   isinstance not_implemented_error ThroomError = false /\
   try_except (subscribe qc topic handler) [(ThroomError, h2)] log
   = (Raise not_implemented_error, log)) /\
  (forall m s, isinstance (mkThroomAPIError m s) ThroomError = true) /\
  (forall m c, isinstance (mkThroomConnectionError m c) ThroomError = true).
Proof.
  intros Hq.
  assert (Hrow : query_row d q args log = (Raise empty_result_error, log')).
  { unfold query_row, bind. rewrite Hq. reflexivity. }
  repeat split; auto.
  unfold try_except. rewrite Hrow. reflexivity.
Qed.

Lemma local_errors_not_ThroomError_witness :
  let s := always (Responded (json_response 200 (PDict [("rows", PList [])]))) in
  try_except (query_row (users_db s) "SELECT 1 WHERE false" [])
    [(ThroomError, fun _ => ret PNone)] []
  = (Raise empty_result_error, [query_request (users_db s) "SELECT 1 WHERE false" []]) /\
  try_except (subscribe (queue (cluster (gateway_at s) "c1")) "events" PNone)
    [(ThroomError, fun _ => ret tt)] []
  = (Raise not_implemented_error, []).
Proof.
  cbv zeta.
  pose proof (local_errors_not_ThroomError
                (users_db (always (Responded (json_response 200 (PDict [("rows", PList [])])))))
                (queue (cluster (gateway_at (always (Responded (json_response 200 (PDict [("rows", PList [])]))))) "c1"))
                "SELECT 1 WHERE false" "events" [] PNone [] _
                (fun _ => ret PNone) (fun _ => ret tt) eq_refl)
    as ((_ & _ & Hrow) & (_ & _ & Hsub) & _).
  split; [exact Hrow | exact Hsub].
Defined.

(** A handler for [ThroomError] does take what [_request] raises. *)
Example ThroomError_handler_catches_api_error :
  let s := always (Responded (json_response 500 (PDict [("message", PStr "boom")]))) in
  fst (try_except (query_row (users_db s) "SELECT 1" [])
         [(ThroomError, fun _ => ret PNone)] [])
  = Ok PNone.
Proof. reflexivity. Qed.

Lemma byte_value_range (b : byte) : 0 <= byte_value b <= 255.
Proof.
  unfold byte_value. pose proof (Byte.to_N_bounded b) as Hb.
  split; [apply N2Z.is_nonneg | lia].
Qed.

(** C7. [publish] sends a body whose [message] field is a list of
    integers: as many as the message has bytes, each between 0 and 255,
    the i-th being the value of the i-th byte. *)
Theorem publish_message_is_byte_array (self : QueueClient) (topic : string)
  (message : list byte) (log : list http_request) :
  exists ints,
    snd (publish self topic message log)
    = (log ++ [publish_request self topic ints])%list /\
    List.length ints = List.length message /\
    Forall (fun v => exists n, v = PInt n /\ 0 <= n <= 255) ints /\
    (forall i, nth_error ints i
               = option_map (fun b => PInt (byte_value b)) (nth_error message i)).
Proof.
  exists (list_of_bytes message). split; [|split; [|split]].
  - unfold publish. rewrite bind_ret_log. apply request_logs_once.
  - unfold list_of_bytes. apply length_map.
  - unfold list_of_bytes. induction message as [| b bs IH]; cbn.
    + constructor.
    + constructor; [|exact IH]. eexists. split; [reflexivity|].
      apply byte_value_range.
  - intros i. unfold list_of_bytes. apply nth_error_map.
Qed.

Example publish_hello :
  let qc := queue (cluster (gateway_at (always (Responded (empty_response 200)))) "c1") in
  publish qc "events" (body_of "hi!") []
  = (Ok tt,
     [{| req_method := "POST";
         req_url := "http://localhost:9000/api/v1/clusters/c1/queue/publish";
         req_json := PDict [("topic", PStr "events");
                            ("message", PList [PInt 104; PInt 105; PInt 33])];
         req_params := PNone; req_timeout := 120 |}]).
Proof. reflexivity. Qed.

(** ** Activity logs *)

Lemma limit_param_computed (filters : option ActivityFilters) (p : pyval) :
  limit_param filters p -> limit_params filters = p.
Proof.
  intros H. destruct H as [ | | | n Hn]; cbn; try reflexivity.
  destruct (Z.eqb_spec n 0) as [-> | _]; [lia | reflexivity].
Qed.

(** C5. The three [get_activity] methods each make one [GET] call whose
    [params] is [None] when there is no filter or the limit is unset or
    zero, and is the dict holding the given limit, unchanged, when the
    limit is positive. *)
Theorem get_activity_limit_param (c : ThroomClient) (cc : ClusterClient)
  (sc : ServiceClient) (filters : option ActivityFilters) (p : pyval)
  (log : list http_request) :
  limit_param filters p ->
  snd (get_activity c filters log)
  = (log ++ [request_of c "GET" "/api/v1/activity" PNone p])%list /\
  snd (ClusterClient_get_activity cc filters log)
  = (log ++ [request_of (ClusterClient_client cc) "GET"
               ("/api/v1/clusters/" ++ ClusterClient_cluster_id cc ++ "/activity")
               PNone p])%list /\
  snd (ServiceClient_get_activity sc filters log)
  = (log ++ [request_of (ServiceClient_client sc) "GET"
               ("/api/v1/clusters/" ++ ServiceClient_cluster_id sc ++ "/services/"
                ++ ServiceClient_service_name sc ++ "/activity")
               PNone p])%list.
Proof.
  intros Hp. apply limit_param_computed in Hp.
  unfold get_activity, ClusterClient_get_activity, ServiceClient_get_activity.
  cbv zeta. rewrite Hp. rewrite !bind_lift_log.
  repeat split; apply request_logs_once.
Qed.

Lemma get_activity_limit_param_witness :
  let c := gateway_at (always (Responded (json_response 200 (PList [])))) in
  let limit10 := Some {| ActivityFilters_limit := Some 10 |} in
  snd (get_activity c limit10 [])
  = [request_of c "GET" "/api/v1/activity" PNone (PDict [("limit", PInt 10)])] /\
  snd (ClusterClient_get_activity (cluster c "c1") limit10 [])
  = [request_of c "GET" "/api/v1/clusters/c1/activity" PNone
       (PDict [("limit", PInt 10)])] /\
  snd (ServiceClient_get_activity (service (cluster c "c1") "redis-1") limit10 [])
  = [request_of c "GET" "/api/v1/clusters/c1/services/redis-1/activity" PNone
       (PDict [("limit", PInt 10)])].
Proof.
  cbv zeta.
  apply (get_activity_limit_param
           (gateway_at (always (Responded (json_response 200 (PList [])))))
           (cluster (gateway_at (always (Responded (json_response 200 (PList []))))) "c1")
           (service (cluster (gateway_at (always (Responded (json_response 200 (PList []))))) "c1") "redis-1")
           (Some {| ActivityFilters_limit := Some 10 |})
           (PDict [("limit", PInt 10)]) []).
  apply limit_positive. reflexivity.
Defined.

Example get_activity_without_filter :
  let c := gateway_at (always (Responded (json_response 200 (PList [])))) in
  get_activity c None []
  = (Ok [], [{| req_method := "GET";
                req_url := "http://localhost:9000/api/v1/activity";
                req_json := PNone; req_params := PNone; req_timeout := 120 |}]).
Proof. reflexivity. Qed.

(** A negative limit is true as well, and is sent as it is. *)
Example get_activity_negative_limit :
  let c := gateway_at (always (Responded (json_response 200 (PList [])))) in
  map req_params (snd (get_activity c (Some {| ActivityFilters_limit := Some (-1) |}) []))
  = [PDict [("limit", PInt (-1))]].
Proof. reflexivity. Qed.

(** ** Creating a cluster *)

Lemma dict_set_fresh {V : Type} (k : string) (v : V) (d : list (string * V)) :
  ~ In k (dict_keys d) -> dict_set k v d = (d ++ [(k, v)])%list.
Proof.
  induction d as [| [k' v'] d IH]; cbn; intros Hk; [reflexivity|].
  destruct (String.eqb_spec k k') as [-> | Hne].
  - exfalso. apply Hk. left. reflexivity.
  - rewrite IH; [reflexivity|]. intros Hin. apply Hk. right. exact Hin.
Qed.

Lemma dict_lookup_In {V : Type} (k : string) (v : V) (d : list (string * V)) :
  NoDup (dict_keys d) -> In (k, v) d -> dict_lookup k d = Some v.
Proof.
  induction d as [| [k' v'] d IH]; cbn; intros Hnd Hin; [contradiction|].
  inversion Hnd as [| ? ? Hfresh Hnd']; subst.
  destruct Hin as [Heq | Hin].
  - injection Heq as -> ->. rewrite String.eqb_refl. reflexivity.
  - destruct (String.eqb_spec k k') as [-> | Hne].
    + exfalso. apply Hfresh. change k' with (fst (k', v)).
      apply in_map. exact Hin.
    + apply IH; assumption.
Qed.

(** Over items with distinct keys, as the items of a dict are, a dict
    comprehension keeps one entry per item, in order. *)
Lemma fold_dict_set_fresh {A V : Type} (f : string -> A -> V)
  (items : list (string * A)) (acc : list (string * V)) :
  NoDup (dict_keys acc ++ dict_keys items) ->
  fold_left (fun acc kc => dict_set (fst kc) (f (fst kc) (snd kc)) acc) items acc
  = (acc ++ map (fun kc => (fst kc, f (fst kc) (snd kc))) items)%list.
Proof.
  revert acc. induction items as [| [k c] items IH]; intros acc Hnd; cbn.
  - rewrite app_nil_r. reflexivity.
  - cbn in Hnd. pose proof (NoDup_remove_2 _ _ _ Hnd) as Hfresh.
    rewrite dict_set_fresh.
    + rewrite IH.
      * rewrite <- app_assoc. reflexivity.
      * unfold dict_keys in *. rewrite map_app. cbn.
        rewrite <- app_assoc. exact Hnd.
    + intros Hin. apply Hfresh. apply in_or_app. left. exact Hin.
Qed.

Lemma dict_comprehension_map {A V : Type} (f : string -> A -> V)
  (items : list (string * A)) :
  NoDup (dict_keys items) ->
  dict_comprehension f items = map (fun kc => (fst kc, f (fst kc) (snd kc))) items.
Proof.
  intros Hnd. unfold dict_comprehension.
  rewrite fold_dict_set_fresh; [reflexivity | exact Hnd].
Qed.

Example create_cluster_redis :
  create_cluster (gateway_at (always (Responded created))) "demo"
    [("redis-1", redis_config)] []
  = (Ok {| CreateClusterResponse_cluster_id := PStr "c1";
           CreateClusterResponse_message := PStr "created" |},
     [{| req_method := "POST";
         req_url := "http://localhost:9000/api/v1/clusters";
         req_json :=
           PDict [("name", PStr "demo");
                  ("services",
                   PDict [("redis-1",
                           PDict [("type", PStr "redis"); ("port", PInt 6380);
                                  ("host", PNone); ("username", PNone);
                                  ("password", PNone); ("database", PNone)])])];
         req_params := PNone; req_timeout := 120 |}]).
Proof. reflexivity. Qed.

(** C1 fails on the code: for a config that sets only type and port, the
    entry sent holds [host] (and the other three) with the value [None]. *)
Lemma create_cluster_sends_none_for_unset :
  ~ omits_unset_fields [("redis-1", redis_config)]
      (services_sent
         (snd (create_cluster (gateway_at (always (Responded created))) "demo"
                 [("redis-1", redis_config)] []))).
Proof.
  intros H.
  destruct (H "redis-1" redis_config (or_introl eq_refl)) as (kvs & Hk & Hf & _).
  vm_compute in Hk. injection Hk as <-.
  specialize (Hf "host" (or_introl eq_refl)). discriminate Hf.
Qed.

(** C1 as amended.  For services with distinct names, [create_cluster]
    makes one [POST] whose body holds the cluster name and, under
    [services], one entry per service in the given order; each entry has
    the six keys type, port, host, username, password and database, and an
    optional field left unset is sent as [None], not left out. *)
Theorem create_cluster_payload (self : ThroomClient) (name : string)
  (services : list (string * ServiceConfig)) (log : list http_request) :
  NoDup (dict_keys services) ->
  exists sent,
    snd (create_cluster self name services log)
    = (log ++ [request_of self "POST" "/api/v1/clusters"
                 (PDict [("name", PStr name); ("services", PDict sent)]) PNone])%list /\
    services_sent (snd (create_cluster self name services log)) = sent /\
    carries_all_fields services sent.
Proof.
  intros Hnd. eexists. split; [|split].
  - unfold create_cluster. cbv zeta. rewrite bind_lift_log.
    rewrite request_logs_once. rewrite (dict_comprehension_map _ _ Hnd).
    reflexivity.
  - unfold create_cluster. cbv zeta. rewrite bind_lift_log.
    rewrite request_logs_once. unfold services_sent.
    rewrite rev_unit. cbn. rewrite (dict_comprehension_map _ _ Hnd). reflexivity.
  - split.
    + unfold dict_keys. rewrite map_map. cbn. reflexivity.
    + intros n config Hin. eexists. split.
      * apply dict_lookup_In.
        -- unfold dict_keys. rewrite map_map. cbn. exact Hnd.
        -- apply in_map_iff. exists (n, config). split; [reflexivity | exact Hin].
      * cbn. repeat split.
        -- intros k s [Heq | [Heq | [Heq | [Heq | []]]]];
             injection Heq as <- Hs; cbn; rewrite Hs; reflexivity.
        -- intros k [Heq | [Heq | [Heq | [Heq | []]]]];
             injection Heq as <- Hs; cbn; rewrite Hs; reflexivity.
Qed.

Lemma create_cluster_payload_witness :
  exists sent,
    snd (create_cluster (gateway_at (always (Responded created))) "demo" two_services [])
    = [request_of (gateway_at (always (Responded created))) "POST" "/api/v1/clusters"
         (PDict [("name", PStr "demo"); ("services", PDict sent)]) PNone] /\
    services_sent
      (snd (create_cluster (gateway_at (always (Responded created))) "demo" two_services []))
    = sent /\
    carries_all_fields two_services sent.
Proof.
  apply (create_cluster_payload (gateway_at (always (Responded created))) "demo"
           two_services []).
  constructor.
  - cbn. intros [H | []]. discriminate H.
  - constructor; [intros [] | constructor].
Defined.

(** ** Clusters and their services *)

Lemma rmap_Forall2 {A B : Type} (f : A -> result B) (xs : list A) (ys : list B) :
  rmap f xs = Ok ys -> Forall2 (fun x y => f x = Ok y) xs ys.
Proof.
  revert ys. induction xs as [| x xs IH]; cbn; intros ys H.
  - injection H as <-. constructor.
  - destruct (f x) as [y | e] eqn:Hx; cbn in H; [|discriminate].
    destruct (rmap f xs) as [ys' | e] eqn:Hxs; cbn in H; [|discriminate].
    injection H as <-. constructor; [exact Hx | apply IH; reflexivity].
Qed.

Lemma rmap_total {A B : Type} (f : A -> result B) (xs : list A) :
  Forall (fun x => exists y, f x = Ok y) xs -> exists ys, rmap f xs = Ok ys.
Proof.
  induction 1 as [| x xs [y Hy] _ [ys Hys]]; cbn.
  - eexists. reflexivity.
  - rewrite Hy. cbn. rewrite Hys. cbn. eexists. reflexivity.
Qed.

Lemma Service_init_service_object (s : pyval) :
  is_service_object s = true ->
  exists svc, Service_init s = Ok svc /\ parsed_from s svc.
Proof.
  intros Hs. destruct s as [ | | | | | | kvs]; try discriminate Hs.
  cbn [is_service_object] in Hs. apply andb_true_iff in Hs as [Hreq Hkeys].
  unfold Service_init, dataclass_kwargs.
  cbn [app]. rewrite Hkeys, Hreq. cbn [rbind].
  eexists. split; [reflexivity|].
  unfold parsed_from, member. cbn. repeat split.
Qed.

Lemma services_parse (ss : list pyval) :
  forallb is_service_object ss = true ->
  exists svcs, rmap Service_init ss = Ok svcs /\ Forall2 parsed_from ss svcs.
Proof.
  induction ss as [| s ss IH]; cbn; intros H.
  - eexists. split; [reflexivity | constructor].
  - apply andb_true_iff in H as [Hs Hss].
    destruct (Service_init_service_object s Hs) as (svc & Hsvc & Hp).
    destruct (IH Hss) as (svcs & Hsvcs & Hps).
    rewrite Hsvc. cbn. rewrite Hsvcs. cbn.
    eexists. split; [reflexivity | constructor; assumption].
Qed.

(** The [Cluster(...)] expression on a cluster object. *)
Lemma Cluster_of_cluster_object (c : pyval) (ss : list pyval) :
  cluster_service_objects c = Some ss ->
  exists cl,
    Cluster_of c = Ok cl /\
    Cluster_id cl = member c "id" /\
    Cluster_name cl = member c "name" /\
    Cluster_created_at cl = member c "created_at" /\
    Forall2 parsed_from ss (Cluster_services cl).
Proof.
  intros Hc. destruct c as [ | | | | | | kvs]; try discriminate Hc.
  cbn [cluster_service_objects] in Hc.
  destruct (forallb (has_key kvs) ["id"; "name"; "created_at"]) eqn:Hkeys;
    [|discriminate Hc].
  cbn in Hkeys. unfold has_key in Hkeys.
  unfold Cluster_of, py_getitem, py_get, member.
  destruct (dict_lookup "id" kvs) as [id|]; [|discriminate Hkeys].
  destruct (dict_lookup "name" kvs) as [name|]; [|discriminate Hkeys].
  destruct (dict_lookup "created_at" kvs) as [created_at|]; [|discriminate Hkeys].
  cbn [rbind].
  assert (Hss : exists items, py_iter (match dict_lookup "services" kvs with
                                       | Some x => x | None => PList [] end) = Ok items
                              /\ items = ss /\ forallb is_service_object ss = true).
  { destruct (dict_lookup "services" kvs) as [[ | | | | | xs | ]|]; try discriminate Hc.
    - destruct (forallb is_service_object xs) eqn:Hxs; [|discriminate Hc].
      injection Hc as <-. exists xs. repeat split. exact Hxs.
    - injection Hc as <-. exists []. repeat split. }
  destruct Hss as (items & Hiter & -> & Hall).
  destruct (services_parse ss Hall) as (svcs & Hsvcs & Hps).
  destruct (dict_lookup "services" kvs) as [x|];
    cbn [rbind]; rewrite Hiter; cbn [rbind]; rewrite Hsvcs; cbn [rbind];
    eexists; (split; [reflexivity|]); cbn; repeat split; exact Hps.
Qed.

Lemma request_delivers (self : ThroomClient) (method path : string)
  (data params : pyval) (log : list http_request) (r : response) (v : pyval) :
  session_ self log (request_of self method path data params) = Responded r ->
  delivers r v ->
  fst (_request self method path data params log) = Ok v.
Proof.
  intros Hs (Hst & Hc & Hj). apply Z.leb_gt in Hst.
  run_request. rewrite Hs. cbn. rewrite Hst.
  destruct (content r); [congruence|]. cbn. rewrite Hj. reflexivity.
Qed.

Lemma fst_bind_lift {A B : Type} (m : M A) (f : A -> result B)
  (log : list http_request) (a : A) :
  fst (m log) = Ok a -> fst ((x <- m ;; lift (f x)) log) = f a.
Proof.
  unfold bind, lift. destruct (m log) as [[a' | e] log']; cbn; intros H.
  - injection H as ->. reflexivity.
  - discriminate H.
Qed.

Lemma Cluster_of_keeps_services (c : pyval) :
  cluster_service_objects c <> None ->
  exists cl, Cluster_of c = Ok cl /\ keeps_services c cl.
Proof.
  intros Hc. destruct (cluster_service_objects c) as [ss|] eqn:Hss; [|congruence].
  destruct (Cluster_of_cluster_object c ss Hss) as (cl & Hcl & _ & _ & _ & Hps).
  exists cl. split; [exact Hcl|]. exists ss. split; [exact Hss|]. split; [|exact Hps].
  symmetry. eapply Forall2_length. exact Hps.
Qed.

Lemma clusters_parse (cs : list pyval) :
  Forall (fun c => cluster_service_objects c <> None) cs ->
  exists cls, rmap Cluster_of cs = Ok cls /\ Forall2 keeps_services cs cls.
Proof.
  induction 1 as [| c cs Hc _ (cls & Hcls & Hks)]; cbn.
  - eexists. split; [reflexivity | constructor].
  - destruct (Cluster_of_keeps_services c Hc) as (cl & Hcl & Hk).
    rewrite Hcl. cbn. rewrite Hcls. cbn.
    eexists. split; [reflexivity | constructor; assumption].
Qed.

(** C6. When the gateway answers [get_cluster] with a cluster object that
    holds the service objects [ss], the [Cluster] returned has as many
    services as [ss], the i-th parsed from the i-th object; and when it
    answers [list_clusters] with an array of such objects, every cluster
    of the list returned, in the order of the array, keeps the services
    of its object in the same way. *)
Theorem cluster_services_in_order (self : ThroomClient) (cluster_id : string)
  (log : list http_request) (r1 r2 : response) (c : pyval) (ss cs : list pyval) :
  session_ self log
    (request_of self "GET" ("/api/v1/clusters/" ++ cluster_id) PNone PNone)
  = Responded r1 ->
  delivers r1 c ->
  cluster_service_objects c = Some ss ->
  session_ self log (request_of self "GET" "/api/v1/clusters" PNone PNone)
  = Responded r2 ->
  delivers r2 (PList cs) ->
  Forall (fun c' => cluster_service_objects c' <> None) cs ->
  (exists cl,
     fst (get_cluster self cluster_id log) = Ok cl /\
     List.length (Cluster_services cl) = List.length ss /\
     Forall2 parsed_from ss (Cluster_services cl)) /\
  (exists cls,
     fst (list_clusters self log) = Ok cls /\
     List.length cls = List.length cs /\
     Forall2 keeps_services cs cls).
Proof.
  intros Hs1 Hd1 Hc Hs2 Hd2 Hcs. split.
  - destruct (Cluster_of_cluster_object c ss Hc) as (cl & Hcl & _ & _ & _ & Hps).
    exists cl. split; [|split; [|exact Hps]].
    + unfold get_cluster.
      rewrite (fst_bind_lift _ _ _ c); [exact Hcl|].
      eapply request_delivers; eassumption.
    + symmetry. eapply Forall2_length. exact Hps.
  - destruct (clusters_parse cs Hcs) as (cls & Hcls & Hks).
    exists cls. split; [|split; [|exact Hks]].
    + unfold list_clusters.
      rewrite (fst_bind_lift _ _ _ (PList cs)); [exact Hcls|].
      eapply request_delivers; eassumption.
    + symmetry. eapply Forall2_length. exact Hks.
Qed.

Lemma cluster_services_in_order_witness :
  (exists cl,
     fst (get_cluster (gateway_at clusters_gateway) "c1" []) = Ok cl /\
     List.length (Cluster_services cl) = 2%nat /\
     Forall2 parsed_from [redis_service; postgres_service] (Cluster_services cl)) /\
  (exists cls,
     fst (list_clusters (gateway_at clusters_gateway) []) = Ok cls /\
     List.length cls = 2%nat /\
     Forall2 keeps_services [demo_cluster; bare_cluster] cls).
Proof.
  apply (cluster_services_in_order (gateway_at clusters_gateway) "c1" []
           (json_response 200 demo_cluster)
           (json_response 200 (PList [demo_cluster; bare_cluster]))
           demo_cluster [redis_service; postgres_service]
           [demo_cluster; bare_cluster]).
  - reflexivity.
  - split; [reflexivity | split; [discriminate | reflexivity]].
  - reflexivity.
  - reflexivity.
  - split; [reflexivity | split; [discriminate | reflexivity]].
  - constructor; [discriminate|]. constructor; [discriminate | constructor].
Defined.

Example get_cluster_demo :
  fst (get_cluster (gateway_at clusters_gateway) "c1" [])
  = Ok {| Cluster_id := PStr "c1"; Cluster_name := PStr "demo";
          Cluster_created_at := PStr "2025-01-01T00:00:00Z";
          Cluster_services :=
            [{| Service_name := PStr "redis-1"; Service_type := PStr "redis";
                Service_host := PStr "localhost"; Service_port := PInt 6380;
                Service_healthy := PBool true; Service_username := PNone;
                Service_database := PNone; Service_container_id := PStr "3f2a" |};
             {| Service_name := PStr "postgres-1"; Service_type := PStr "postgres";
                Service_host := PStr "db.internal"; Service_port := PInt 5432;
                Service_healthy := PBool false; Service_username := PStr "app";
                Service_database := PStr "orders"; Service_container_id := PNone |}] |}.
Proof. reflexivity. Qed.

(** A service object with a member that [Service] has no field for makes
    the construction raise. *)
Example get_cluster_unknown_member :
  let s := PDict [("name", PStr "redis-1"); ("type", PStr "redis");
                  ("host", PStr "localhost"); ("port", PInt 6380);
                  ("healthy", PBool true); ("password", PStr "x")] in
  let c := PDict [("id", PStr "c1"); ("name", PStr "demo");
                  ("created_at", PStr "2025-01-01T00:00:00Z");
                  ("services", PList [s])] in
  fst (get_cluster (gateway_at (always (Responded (json_response 200 c)))) "c1" [])
  = Raise (builtin_error TypeError []).
Proof. reflexivity. Qed.

(** * Further properties *)

(** ** Construction of the client *)

Lemma rstrip_slash_no_trailing (s : string) :
  ends_with_slash (rstrip_slash s) = false.
Proof.
  induction s as [| c s IH]; cbn; [reflexivity|].
  destruct (rstrip_slash s) as [| a r] eqn:Hr.
  - destruct (Ascii.eqb_spec c "/"%char) as [-> | Hne]; cbn; [reflexivity|].
    apply Ascii.eqb_neq. exact Hne.
  - cbn in IH |- *. exact IH.
Qed.

Lemma rstrip_slash_decompose (s : string) :
  exists n, s = (rstrip_slash s ++ slashes n)%string.
Proof.
  induction s as [| c s [n IH]]; cbn.
  - exists O. reflexivity.
  - destruct (rstrip_slash s) as [| a r] eqn:Hr.
    + cbn in IH. destruct (Ascii.eqb_spec c "/"%char) as [-> | Hne].
      * exists (S n). cbn. rewrite IH at 1. reflexivity.
      * exists n. cbn. rewrite IH at 1. reflexivity.
    + exists n. cbn. rewrite IH at 1. reflexivity.
Qed.

Lemma rstrip_slash_fixed (s : string) :
  ends_with_slash s = false -> rstrip_slash s = s.
Proof.
  induction s as [| c s IH]; [reflexivity|].
  destruct s as [| a s'].
  - cbn. intros ->. reflexivity.
  - intros H. change (ends_with_slash (String a s') = false) in H.
    change (rstrip_slash (String c (String a s')))
      with (match rstrip_slash (String a s') with
            | EmptyString =>
                if (c =? "/")%char then EmptyString else String c EmptyString
            | String a' r' => String c (String a' r')
            end).
    rewrite (IH H). reflexivity.
Qed.

(** X1. [ThroomClient.__init__] keeps as [base_url] the given URL without
    its trailing slashes, all of them: the URL is [base_url] followed by
    slashes only, and [base_url] does not end with one, so that building
    a client from it again changes nothing.  The timeout is the one
    given, 120 when none is. *)
Theorem ThroomClient_init_base_url (s : session) (url : string) (t : option Z) :
  let c := ThroomClient_init s url t in
  ends_with_slash (base_url c) = false /\
  (exists n, url = (base_url c ++ slashes n)%string) /\
  timeout c = match t with Some x => x | None => 120 end /\
  base_url (ThroomClient_init s (base_url c) t) = base_url c.
Proof.
  cbn. repeat split.
  - apply rstrip_slash_no_trailing.
  - apply rstrip_slash_decompose.
  - apply rstrip_slash_fixed. apply rstrip_slash_no_trailing.
Qed.

Example ThroomClient_init_strips_all :
  base_url (ThroomClient_init (always (Failed connection_refused))
              "https://gw.example.com:9000//" (Some 30))
  = "https://gw.example.com:9000".
Proof. reflexivity. Qed.

(** ** One call per operation *)

(** A continuation that makes no call leaves the log where the first
    part of the body left it. *)
Lemma snd_bind_pure {A B : Type} (m : M A) (k : A -> M B) (log : list http_request) :
  (forall a l, snd (k a l) = l) -> snd ((x <- m ;; k x) log) = snd (m log).
Proof.
  intros Hk. unfold bind. destruct (m log) as [[a | e] log']; cbn.
  - apply Hk.
  - reflexivity.
Qed.

Lemma request_one_call (c : ThroomClient) (method rest : string) (data params : pyval) :
  one_call c (_request c method ("/api/v1/" ++ rest) data params).
Proof.
  intros log. eexists. split; [apply request_logs_once|].
  split; [reflexivity|]. exists rest. reflexivity.
Qed.

Lemma one_call_bind_pure {A B : Type} (c : ThroomClient) (m : M A) (k : A -> M B) :
  (forall a l, snd (k a l) = l) -> one_call c m -> one_call c (x <- m ;; k x).
Proof.
  intros Hk Hm log. destruct (Hm log) as (req & Hlog & Ht & Hu).
  exists req. split; [|split; assumption].
  rewrite snd_bind_pure; assumption.
Qed.

Lemma get_logs_one_call (sc : ServiceClient) (options : option LogOptions) :
  one_call (ServiceClient_client sc) (get_logs sc options).
Proof.
  intros log. unfold get_logs, try_except, bind, session_request, lift, ret, raise.
  eexists. split; [|split; [|eexists]].
  - destruct (session_ (ServiceClient_client sc) log _) as [r | e]; cbn.
    + destruct (raise_for_status r) as [[] | e]; cbn; [reflexivity|].
      destruct (isinstance e RequestException); reflexivity.
    + destruct (isinstance e RequestException); reflexivity.
  - reflexivity.
  - cbn [req_url]. reflexivity.
Qed.

Ltac one_call_of_request :=
  first
    [ apply request_one_call
    | apply one_call_bind_pure; [intros; reflexivity | one_call_of_request] ].

(** X2. Every operation that reaches the gateway calls the session
    exactly once, whatever the session answers and whether the operation
    returns or raises: there is no retry and no second request.  The call
    carries the client's timeout and goes to a URL made of the client's
    [base_url] and a path under [/api/v1/]. *)
Theorem every_operation_calls_once (c : ThroomClient) (cc : ClusterClient)
  (sc : ServiceClient) (d : DBClient) (ca : CacheClient) (qc : QueueClient) :
  one_call c (health c) /\
  one_call c (list_clusters c) /\
  (forall id, one_call c (get_cluster c id)) /\
  (forall name services, one_call c (create_cluster c name services)) /\
  (forall id, one_call c (delete_cluster c id)) /\
  (forall filters, one_call c (get_activity c filters)) /\
  one_call (ClusterClient_client cc) (ClusterClient_health cc) /\
  one_call (ClusterClient_client cc) (metrics cc) /\
  (forall filters,
     one_call (ClusterClient_client cc) (ClusterClient_get_activity cc filters)) /\
  one_call (ServiceClient_client sc) (get_info sc) /\
  (forall options, one_call (ServiceClient_client sc) (get_logs sc options)) /\
  (forall filters,
     one_call (ServiceClient_client sc) (ServiceClient_get_activity sc filters)) /\
  (forall q args, one_call (DBClient_client d) (execute d q args)) /\
  (forall q args, one_call (DBClient_client d) (query d q args)) /\
  (forall q args, one_call (DBClient_client d) (query_row d q args)) /\
  (forall key, one_call (CacheClient_client ca) (CacheClient_get ca key)) /\
  (forall key value expiration,
     one_call (CacheClient_client ca) (CacheClient_set ca key value expiration)) /\
  (forall key, one_call (CacheClient_client ca) (CacheClient_delete ca key)) /\
  (forall topic message, one_call (QueueClient_client qc) (publish qc topic message)).
Proof.
  repeat match goal with |- _ /\ _ => split end; intros;
    try apply get_logs_one_call;
    try (unfold health, list_clusters, get_cluster, create_cluster, delete_cluster,
           get_activity, ClusterClient_health, metrics, ClusterClient_get_activity,
           get_info, ServiceClient_get_activity, execute, query, CacheClient_get,
           CacheClient_set, CacheClient_delete, publish;
         cbv zeta; one_call_of_request).
  unfold query_row. apply one_call_bind_pure.
  - intros rows l. destruct (truthy rows); reflexivity.
  - unfold query. one_call_of_request.
Qed.

Example subscribe_calls_nothing (qc : QueueClient) (log : list http_request) :
  snd (subscribe qc "events" PNone log) = log.
Proof. reflexivity. Qed.

(** ** Classification of outcomes *)

(** X3. A response with status 400 or more whose body is empty or decodes
    to an object makes [_request] raise a [ThroomAPIError] with that
    status.  Its message is the [message] member when that is true, else
    the [error] member when that is true, else the text of the response:
    a member that is present but empty, null or zero is passed over like
    an absent one. *)
Theorem request_api_error_message (self : ThroomClient) (method path : string)
  (data params : pyval) (log : list http_request) (r : response)
  (kvs : list (string * pyval)) :
  session_ self log (request_of self method path data params) = Responded r ->
  400 <= status_code r ->
  error_body r kvs ->
  fst (_request self method path data params log) = Raise (api_error_for r kvs) /\
  exn_status_code (api_error_for r kvs) = Some (status_code r) /\
  isinstance (api_error_for r kvs) ThroomError = true /\
  (truthy (member (PDict kvs) "message") = true ->
   best_message r kvs = member (PDict kvs) "message") /\
  (truthy (member (PDict kvs) "message") = false ->
   truthy (member (PDict kvs) "error") = true ->
   best_message r kvs = member (PDict kvs) "error") /\
  (truthy (member (PDict kvs) "message") = false ->
   truthy (member (PDict kvs) "error") = false ->
   best_message r kvs = PStr (text r)).
Proof.
  intros Hs Hst Hb. split; [|split; [reflexivity|split; [reflexivity|]]].
  - apply request_api_error; [exact Hs | exact Hst |].
    destruct Hb as [[Hc ->] | [Hc Hj]].
    + rewrite Hc. reflexivity.
    + destruct (content r); [congruence | exact Hj].
  - unfold best_message, py_or. repeat split.
    + intros ->. reflexivity.
    + intros -> ->. reflexivity.
    + intros -> ->. reflexivity.
Qed.

Lemma request_api_error_message_witness :
  let r := json_response 503 (PDict [("message", PStr EmptyString);
                                     ("error", PStr "database is down")]) in
  fst (_request (gateway_at (always (Responded r))) "GET" "/api/v1/health" PNone PNone [])
  = Raise (mkThroomAPIError
             [FLit "Throome API Error ("; FVal (PInt 503); FLit "): ";
              FVal (PStr "database is down")] 503).
Proof.
  cbv zeta.
  refine (proj1 (request_api_error_message _ "GET" "/api/v1/health" PNone PNone []
                   (json_response 503 (PDict [("message", PStr EmptyString);
                                              ("error", PStr "database is down")]))
                   [("message", PStr EmptyString); ("error", PStr "database is down")]
                   _ _ _)).
  - reflexivity.
  - discriminate.
  - right. split; [discriminate | reflexivity].
Defined.

(** X4. [_request] returns a value only when the session delivered a
    response with status below 400: then the value is [None] for an empty
    body and the decoded body otherwise.  A failure of the session, a
    status of 400 or more and a body that cannot be decoded never yield a
    value. *)
Theorem request_returns_only_success (self : ThroomClient) (method path : string)
  (data params : pyval) (log : list http_request) (v : pyval) :
  fst (_request self method path data params log) = Ok v ->
  exists r,
    session_ self log (request_of self method path data params) = Responded r /\
    status_code r < 400 /\
    ((content r = [] /\ v = PNone) \/ (content r <> [] /\ json r = Ok v)).
Proof.
  run_request.
  destruct (session_ self log _) as [r | e]; cbn.
  - intros H. exists r. split; [reflexivity|].
    destruct (400 <=? status_code r) eqn:Hst; cbn in H.
    + exfalso.
      destruct (if nonempty (content r) then json r else Ok (PDict []))
        as [error_data | e]; cbn in H.
      * destruct (py_get error_data "message" PNone) as [m | e]; cbn in H.
        -- destruct (truthy m); cbn in H; [discriminate H|].
           destruct (py_get error_data "error" PNone) as [m' | e]; cbn in H;
             [discriminate H|].
           revert H. handlers; discriminate.
        -- revert H. handlers; discriminate.
      * revert H. handlers; discriminate.
    + apply Z.leb_gt in Hst. split; [exact Hst|].
      destruct (content r) as [| b bs]; cbn in H.
      * left. split; [reflexivity|]. injection H as <-. reflexivity.
      * right. split; [discriminate|].
        destruct (json r) as [v' | e]; cbn in H.
        -- injection H as ->. reflexivity.
        -- revert H. handlers; discriminate.
  - handlers; discriminate.
Qed.

Lemma request_returns_only_success_witness :
  exists r,
    session_ (gateway_at clusters_gateway) []
      (request_of (gateway_at clusters_gateway) "GET" "/api/v1/clusters/c1" PNone PNone)
    = Responded r /\
    status_code r < 400 /\
    ((content r = [] /\ demo_cluster = PNone) \/
     (content r <> [] /\ json r = Ok demo_cluster)).
Proof.
  apply (request_returns_only_success (gateway_at clusters_gateway)
           "GET" "/api/v1/clusters/c1" PNone PNone [] demo_cluster).
  reflexivity.
Defined.

(** ** Propagation of errors *)

Lemma fst_bind_raise {A B : Type} (m : M A) (k : A -> M B)
  (log : list http_request) (e : exn) :
  fst (m log) = Raise e -> fst ((x <- m ;; k x) log) = Raise e.
Proof.
  unfold bind. destruct (m log) as [[a | e'] log']; cbn; intros H.
  - discriminate H.
  - injection H as ->. reflexivity.
Qed.

(** What [_request] raises, every operation built on it raises as it is. *)
Lemma operations_propagate (c : ThroomClient) (log : list http_request) (err : exn) :
  (forall method path data params,
     fst (_request c method path data params log) = Raise err) ->
  every_operation_raises c log err.
Proof.
  intros H. unfold every_operation_raises.
  repeat match goal with |- _ /\ _ => split end; intros;
    try (unfold health, list_clusters, get_cluster, create_cluster, delete_cluster,
           get_activity, ClusterClient_health, metrics, ClusterClient_get_activity,
           get_info, ServiceClient_get_activity, execute, query, CacheClient_get,
           CacheClient_set, CacheClient_delete, publish;
         cbv zeta; apply fst_bind_raise; apply H).
  unfold query_row. apply fst_bind_raise. unfold query. apply fst_bind_raise. apply H.
Qed.

(** X5. When the session cannot reach the gateway (every call fails with
    the same timeout or connection failure), every operation raises a
    [ThroomConnectionError] raised while handling that failure; no
    operation returns a value in its place. *)
Theorem unreachable_gateway (c : ThroomClient) (log : list http_request) (e : exn) :
  (forall req, session_ c log req = Failed e) ->
  transport_failure e = true ->
  every_operation_raises c log (connection_error_for e) /\
  (forall id svc options,
     fst (get_logs (service (cluster c id) svc) options log)
     = Raise (mkThroomConnectionError [FLit "Failed to get logs: "; FExn e] e)) /\
  exn_context (connection_error_for e) = Some e /\
  isinstance (connection_error_for e) ThroomError = true.
Proof.
  intros Hs Ht. pose proof (transport_failure_RequestException e Ht) as He.
  split; [|split; [|split; reflexivity]].
  - apply operations_propagate. intros.
    apply request_wraps_request_exception; [apply Hs | exact He].
  - intros id svc options.
    destruct (get_logs_wraps_request_exception
                (service (cluster c id) svc) options log e Hs He) as [req Hreq].
    rewrite Hreq. reflexivity.
Qed.

Lemma unreachable_gateway_witness :
  every_operation_raises (gateway_at (always (Failed connection_refused))) []
    (mkThroomConnectionError
       [FLit "Connection error: "; FExn connection_refused] connection_refused).
Proof.
  refine (proj1 (unreachable_gateway (gateway_at (always (Failed connection_refused)))
                   [] connection_refused _ _)).
  - reflexivity.
  - reflexivity.
Defined.

(** X6. When the gateway answers with a status of 400 or more and a body
    that is empty or an object, every operation built on [_request]
    raises the one [ThroomAPIError] that carries the status and the
    message of the body: the typed layer neither handles nor rewraps
    it. *)
Theorem rejected_by_gateway (c : ThroomClient) (log : list http_request)
  (r : response) (kvs : list (string * pyval)) :
  (forall req, session_ c log req = Responded r) ->
  400 <= status_code r ->
  error_body r kvs ->
  every_operation_raises c log (api_error_for r kvs).
Proof.
  intros Hs Hst Hb. apply operations_propagate. intros.
  apply request_api_error; [apply Hs | exact Hst |].
  destruct Hb as [[Hc ->] | [Hc Hj]].
  - rewrite Hc. reflexivity.
  - destruct (content r); [congruence | exact Hj].
Qed.

Lemma rejected_by_gateway_witness :
  every_operation_raises
    (gateway_at (always (Responded (json_response 404 (PDict [("error", PStr "cluster not found")])))))
    []
    (mkThroomAPIError
       [FLit "Throome API Error ("; FVal (PInt 404); FLit "): ";
        FVal (PStr "cluster not found")] 404).
Proof.
  refine (rejected_by_gateway
            (gateway_at (always (Responded (json_response 404 (PDict [("error", PStr "cluster not found")])))))
            [] (json_response 404 (PDict [("error", PStr "cluster not found")]))
            [("error", PStr "cluster not found")] _ _ _).
  - reflexivity.
  - discriminate.
  - right. split; [discriminate | reflexivity].
Defined.

(** ** Service logs *)

Ltac run_get_logs :=
  unfold get_logs, try_except, bind, session_request, lift, ret, raise, logs_request;
  cbn [LogOptions_tail LogOptions_timestamps opt_int truthy negb dict_set
       find_handler fst snd].

Ltac get_logs_outcomes log :=
  match goal with
  | |- context [session_ ?c log ?req] =>
      destruct (session_ c log req) as [?r | ?e]; cbn;
      [ match goal with
        | |- context [raise_for_status ?r] =>
            destruct (raise_for_status r) as [[] | ?e]; cbn; [reflexivity|]
        end
      | ];
      match goal with
      | |- context [isinstance ?e RequestException] =>
          destruct (isinstance e RequestException); reflexivity
      end
  end.

(** X7. [get_logs] makes one [GET] call without body whose query
    parameters are always a dict, never [None]: it holds [tail] exactly
    when a tail is given and is not zero, with the number given, and
    [timestamps] exactly when the flag is set, with the text [true].  A
    tail of zero is dropped like an absent one. *)
Theorem get_logs_params (sc : ServiceClient) (options : option LogOptions)
  (log : list http_request) :
  snd (get_logs sc options log)
  = (log ++ [logs_request sc (log_params options)])%list.
Proof.
  unfold log_params.
  destruct options as [[[n |] ts] |];
    cbn [tail_of timestamps_of LogOptions_tail LogOptions_timestamps].
  - destruct (Z.eqb_spec n 0) as [Hn | Hn]; destruct ts; run_get_logs.
    + subst n. cbn. get_logs_outcomes log.
    + subst n. cbn. get_logs_outcomes log.
    + apply Z.eqb_neq in Hn. rewrite Hn. cbn. get_logs_outcomes log.
    + apply Z.eqb_neq in Hn. rewrite Hn. cbn. get_logs_outcomes log.
  - destruct ts; run_get_logs; cbn; get_logs_outcomes log.
  - run_get_logs. cbn. get_logs_outcomes log.
Qed.

Example get_logs_tail_and_timestamps :
  let sc := service (cluster (gateway_at (always (Responded (text_response 200 "ready")))) "c1") "redis-1" in
  get_logs sc (Some {| LogOptions_tail := Some 100; LogOptions_timestamps := true |}) []
  = (Ok "ready",
     [{| req_method := "GET";
         req_url := "http://localhost:9000/api/v1/clusters/c1/services/redis-1/logs";
         req_json := PNone;
         req_params := PDict [("tail", PInt 100); ("timestamps", PStr "true")];
         req_timeout := 120 |}]).
Proof. reflexivity. Qed.

(** X8. [get_logs] never decodes the body.  For a response outside the
    statuses 400 to 599 it returns the text of the response as it is; for
    a status from 400 to 599 it raises a [ThroomConnectionError] raised
    while handling the [HTTPError] of [raise_for_status]: the error is
    not a [ThroomAPIError] and carries no status code. *)
Theorem get_logs_result (sc : ServiceClient) (options : option LogOptions)
  (log : list http_request) (r : response) :
  (forall req, session_ (ServiceClient_client sc) log req = Responded r) ->
  let err := mkThroomConnectionError [FLit "Failed to get logs: "; FExn http_error]
               http_error in
  fst (get_logs sc options log)
  = (if (400 <=? status_code r) && (status_code r <? 600)
     then Raise err else Ok (text r)) /\
  isinstance err ThroomAPIError = false /\
  exn_status_code err = None.
Proof.
  intros Hs. cbv zeta. split; [|split; reflexivity].
  unfold get_logs, try_except, bind, session_request, lift, ret, raise.
  rewrite Hs. cbn. unfold raise_for_status.
  destruct ((400 <=? status_code r) && (status_code r <? 600)); reflexivity.
Qed.

Lemma get_logs_result_witness :
  let sc := service (cluster (gateway_at (always (Responded
              (json_response 404 (PDict [("error", PStr "no such service")]))))) "c1")
              "redis-1" in
  fst (get_logs sc None [])
  = Raise (mkThroomConnectionError [FLit "Failed to get logs: "; FExn http_error]
             http_error).
Proof.
  cbv zeta.
  refine (proj1 (get_logs_result
                   (service (cluster (gateway_at (always (Responded
                      (json_response 404 (PDict [("error", PStr "no such service")])))))
                      "c1") "redis-1")
                   None []
                   (json_response 404 (PDict [("error", PStr "no such service")])) _)).
  reflexivity.
Defined.

(** ** Cache *)

(** X9. [CacheClient.set] sends the key and the value and, after them,
    [expiration] exactly when an expiration is given, whatever its value:
    zero and negative expirations are sent as they are, and only [None]
    leaves the member out. *)
Theorem cache_set_payload (ca : CacheClient) (key value : string)
  (expiration : option Z) (log : list http_request) :
  exists payload,
    snd (CacheClient_set ca key value expiration log)
    = (log ++ [cache_set_request ca payload])%list /\
    dict_keys payload
    = (["key"; "value"] ++ match expiration with
                           | Some _ => ["expiration"]
                           | None => []
                           end)%list /\
    dict_lookup "key" payload = Some (PStr key) /\
    dict_lookup "value" payload = Some (PStr value) /\
    dict_lookup "expiration" payload = option_map PInt expiration.
Proof.
  unfold CacheClient_set. cbv zeta.
  destruct expiration as [e |]; eexists;
    (split; [rewrite snd_bind_pure; [apply request_logs_once | intros; reflexivity]|]);
    repeat split.
Qed.

Example cache_set_zero_expiration :
  let ca := cache (cluster (gateway_at (always (Responded (empty_response 200)))) "c1") in
  map req_json (snd (CacheClient_set ca "k" "v" (Some 0) []))
  = [PDict [("key", PStr "k"); ("value", PStr "v"); ("expiration", PInt 0)]].
Proof. reflexivity. Qed.

(** ** Reading the body *)

Lemma fst_bind_ok {A B : Type} (m : M A) (k : A -> M B)
  (log : list http_request) (a : A) :
  fst (m log) = Ok a -> fst ((x <- m ;; k x) log) = fst (k a (snd (m log))).
Proof.
  unfold bind. destruct (m log) as [[a' | e] log']; cbn; intros H.
  - injection H as ->. reflexivity.
  - discriminate H.
Qed.

(** X10. [query] and [CacheClient.get] return one member of the decoded
    object, [rows] and [value], whatever its type; when the object lacks
    the member they raise a [KeyError] naming it. *)
Theorem body_member_readers (c : ThroomClient) (id q key : string)
  (args : list pyval) (log : list http_request) (r : response)
  (kvs : list (string * pyval)) :
  (forall req, session_ c log req = Responded r) ->
  delivers r (PDict kvs) ->
  fst (query (db (cluster c id)) q args log)
  = match dict_lookup "rows" kvs with
    | Some rows => Ok rows
    | None => Raise (builtin_error KeyError [FVal (PStr "rows")])
    end /\
  fst (CacheClient_get (cache (cluster c id)) key log)
  = match dict_lookup "value" kvs with
    | Some v => Ok v
    | None => Raise (builtin_error KeyError [FVal (PStr "value")])
    end.
Proof.
  intros Hs Hd. split.
  - unfold query. rewrite (fst_bind_lift _ _ _ (PDict kvs)); [reflexivity|].
    eapply request_delivers; [apply Hs | exact Hd].
  - unfold CacheClient_get. rewrite (fst_bind_lift _ _ _ (PDict kvs)); [reflexivity|].
    eapply request_delivers; [apply Hs | exact Hd].
Qed.

Lemma body_member_readers_witness :
  let c := gateway_at (always (Responded (json_response 200 (PDict [("value", PStr "42")])))) in
  fst (query (db (cluster c "c1")) "SELECT 1" [] [])
  = Raise (builtin_error KeyError [FVal (PStr "rows")]) /\
  fst (CacheClient_get (cache (cluster c "c1")) "answer" []) = Ok (PStr "42").
Proof.
  cbv zeta.
  refine (body_member_readers
            (gateway_at (always (Responded (json_response 200 (PDict [("value", PStr "42")])))))
            "c1" "SELECT 1" "answer" [] []
            (json_response 200 (PDict [("value", PStr "42")]))
            [("value", PStr "42")] _ _).
  - reflexivity.
  - split; [reflexivity | split; [discriminate | reflexivity]].
Defined.

(** X11. On a response with status below 400 and no body, such as a 204,
    every operation that builds its result from the body raises a
    [TypeError]: [_request] hands it [None], which has no members and
    cannot be iterated. *)
Theorem readers_on_empty_body (c : ThroomClient) (log : list http_request)
  (r : response) :
  (forall req, session_ c log req = Responded r) ->
  status_code r < 400 ->
  content r = [] ->
  fst (health c log) = Raise type_error /\
  fst (list_clusters c log) = Raise type_error /\
  (forall id, fst (get_cluster c id log) = Raise type_error) /\
  (forall name services, fst (create_cluster c name services log) = Raise type_error) /\
  (forall filters, fst (get_activity c filters log) = Raise type_error) /\
  (forall id, fst (ClusterClient_health (cluster c id) log) = Raise type_error) /\
  (forall id, fst (metrics (cluster c id) log) = Raise type_error) /\
  (forall id filters,
     fst (ClusterClient_get_activity (cluster c id) filters log) = Raise type_error) /\
  (forall id svc, fst (get_info (service (cluster c id) svc) log) = Raise type_error) /\
  (forall id svc filters,
     fst (ServiceClient_get_activity (service (cluster c id) svc) filters log)
     = Raise type_error) /\
  (forall id q args, fst (query (db (cluster c id)) q args log) = Raise type_error) /\
  (forall id q args, fst (query_row (db (cluster c id)) q args log) = Raise type_error) /\
  (forall id key, fst (CacheClient_get (cache (cluster c id)) key log) = Raise type_error).
Proof.
  intros Hs Hst Hc.
  assert (Hreq : forall method path data params,
             fst (_request c method path data params log) = Ok PNone).
  { intros. run_request. rewrite Hs. cbn.
    apply Z.leb_gt in Hst. rewrite Hst, Hc. reflexivity. }
  repeat match goal with |- _ /\ _ => split end; intros;
    try (unfold health, list_clusters, get_cluster, create_cluster, get_activity,
           ClusterClient_health, metrics, ClusterClient_get_activity, get_info,
           ServiceClient_get_activity, query, CacheClient_get;
         cbv zeta; rewrite (fst_bind_lift _ _ _ PNone); [reflexivity | apply Hreq]).
  unfold query_row. apply fst_bind_raise.
  unfold query. rewrite (fst_bind_lift _ _ _ PNone); [reflexivity | apply Hreq].
Qed.

Lemma readers_on_empty_body_witness :
  fst (list_clusters (gateway_at (always (Responded (empty_response 204)))) [])
  = Raise type_error.
Proof.
  refine (proj1 (proj2 (readers_on_empty_body
                          (gateway_at (always (Responded (empty_response 204)))) []
                          (empty_response 204) _ _ _))).
  - reflexivity.
  - reflexivity.
  - reflexivity.
Defined.

(** X12. The operations without result ([delete_cluster], [execute],
    [CacheClient.set], [CacheClient.delete], [publish]) return [None] on
    every response with status below 400 whose body is empty or can be
    decoded: what the body holds is not looked at. *)
Theorem no_content_operations (c : ThroomClient) (log : list http_request)
  (r : response) :
  (forall req, session_ c log req = Responded r) ->
  status_code r < 400 ->
  content r = [] \/ (exists v, json r = Ok v) ->
  (forall id, fst (delete_cluster c id log) = Ok tt) /\
  (forall id q args, fst (execute (db (cluster c id)) q args log) = Ok tt) /\
  (forall id key value expiration,
     fst (CacheClient_set (cache (cluster c id)) key value expiration log) = Ok tt) /\
  (forall id key, fst (CacheClient_delete (cache (cluster c id)) key log) = Ok tt) /\
  (forall id topic message,
     fst (publish (queue (cluster c id)) topic message log) = Ok tt).
Proof.
  intros Hs Hst Hb.
  assert (Hreq : forall method path data params,
             exists v, fst (_request c method path data params log) = Ok v).
  { intros. run_request. rewrite Hs. cbn.
    apply Z.leb_gt in Hst. rewrite Hst.
    destruct (content r) as [| b bs] eqn:Hc; cbn.
    - eexists. reflexivity.
    - destruct Hb as [Hb | [v Hv]]; [discriminate Hb|].
      rewrite Hv. eexists. reflexivity. }
  repeat match goal with |- _ /\ _ => split end; intros;
    unfold delete_cluster, execute, CacheClient_set, CacheClient_delete, publish;
    cbv zeta;
    match goal with
    | |- fst ((_ <- _request ?c ?m ?p ?d ?ps ;; _) _) = _ =>
        destruct (Hreq m p d ps) as [v Hv];
        rewrite (fst_bind_ok _ _ _ v Hv); reflexivity
    end.
Qed.

Lemma no_content_operations_witness :
  fst (delete_cluster (gateway_at (always (Responded
         (json_response 200 (PDict [("message", PStr "deleted")]))))) "c1" [])
  = Ok tt.
Proof.
  refine (proj1 (no_content_operations
                   (gateway_at (always (Responded
                      (json_response 200 (PDict [("message", PStr "deleted")])))))
                   [] (json_response 200 (PDict [("message", PStr "deleted")])) _ _ _)
            "c1").
  - reflexivity.
  - reflexivity.
  - right. eexists. reflexivity.
Defined.

(** ** Cluster health *)

Lemma ServiceHealth_init_health_object (v : pyval) :
  is_health_object v = true ->
  exists h, ServiceHealth_init v = Ok h /\ health_parsed_from v h.
Proof.
  intros Hv. destruct v as [ | | | | | | kvs]; try discriminate Hv.
  cbn [is_health_object] in Hv. apply andb_true_iff in Hv as [Hreq Hkeys].
  unfold ServiceHealth_init, dataclass_kwargs.
  cbn [app]. rewrite Hkeys, Hreq. cbn [rbind].
  eexists. split; [reflexivity|].
  unfold health_parsed_from, member. cbn. repeat split.
Qed.

(** Over items with distinct keys none of which is in the accumulator,
    the loop appends one entry per item, in order. *)
Lemma rdict_build_fresh {A V : Type} (f : string -> A -> result V)
  (P : A -> V -> Prop) (items : list (string * A)) (acc : list (string * V)) :
  NoDup (dict_keys acc ++ dict_keys items) ->
  Forall (fun ka => exists y, f (fst ka) (snd ka) = Ok y /\ P (snd ka) y) items ->
  exists ys,
    rdict_build f items acc = Ok (acc ++ ys)%list /\
    Forall2 (fun ka ky => fst ky = fst ka /\ P (snd ka) (snd ky)) items ys.
Proof.
  revert acc. induction items as [| [k a] items IH]; intros acc Hnd Hall; cbn.
  - exists []. rewrite app_nil_r. split; [reflexivity | constructor].
  - inversion Hall as [| ? ? (y & Hy & Hp) Hall']; subst. cbn in Hy, Hp.
    rewrite Hy. cbn [rbind].
    cbn in Hnd. pose proof (NoDup_remove_2 _ _ _ Hnd) as Hfresh.
    rewrite dict_set_fresh.
    + destruct (IH (acc ++ [(k, y)])%list) as (ys & Hys & Hf2).
      * unfold dict_keys in *. rewrite map_app. cbn.
        rewrite <- app_assoc. exact Hnd.
      * exact Hall'.
      * exists ((k, y) :: ys). split.
        -- rewrite Hys. rewrite <- app_assoc. reflexivity.
        -- constructor; [split; [reflexivity | exact Hp] | exact Hf2].
    + intros Hin. apply Hfresh. apply in_or_app. left. exact Hin.
Qed.

Lemma Forall2_keys {A V : Type} (P : A -> V -> Prop)
  (items : list (string * A)) (ys : list (string * V)) :
  Forall2 (fun ka ky => fst ky = fst ka /\ P (snd ka) (snd ky)) items ys ->
  dict_keys ys = dict_keys items.
Proof.
  unfold dict_keys.
  induction 1 as [| ka ky items ys [Hk _] _ IH]; cbn; [reflexivity|].
  rewrite Hk, IH. reflexivity.
Qed.

(** X13. When the gateway answers [ClusterClient.health] with an object
    that has a [cluster_id] and, under [services], an object of
    service-health objects, the result maps the same service names, in
    the same order, to the records parsed from those objects. *)
Theorem cluster_health_services (cc : ClusterClient) (log : list http_request)
  (r : response) (kvs hs : list (string * pyval)) (cid : pyval) :
  (forall req, session_ (ClusterClient_client cc) log req = Responded r) ->
  delivers r (PDict kvs) ->
  dict_lookup "cluster_id" kvs = Some cid ->
  dict_lookup "services" kvs = Some (PDict hs) ->
  NoDup (dict_keys hs) ->
  forallb (fun kv => is_health_object (snd kv)) hs = true ->
  exists res,
    fst (ClusterClient_health cc log) = Ok res /\
    ClusterHealthResponse_cluster_id res = cid /\
    dict_keys (ClusterHealthResponse_services res) = dict_keys hs /\
    Forall2 (fun kv kh => fst kh = fst kv /\ health_parsed_from (snd kv) (snd kh))
      hs (ClusterHealthResponse_services res).
Proof.
  intros Hs Hd Hcid Hss Hnd Hall.
  destruct (rdict_build_fresh (fun _ v => ServiceHealth_init v) health_parsed_from
              hs [] Hnd) as (ys & Hys & Hf2).
  { apply Forall_forall. intros kv Hin.
    rewrite forallb_forall in Hall. specialize (Hall kv Hin).
    destruct (ServiceHealth_init_health_object _ Hall) as (h & Hh & Hp).
    exists h. split; assumption. }
  exists {| ClusterHealthResponse_cluster_id := cid;
            ClusterHealthResponse_services := ys |}.
  split; [|split; [reflexivity | split; [|exact Hf2]]].
  - unfold ClusterClient_health.
    rewrite (fst_bind_lift _ _ _ (PDict kvs)).
    + cbn [py_getitem]. rewrite Hcid. cbn [rbind]. rewrite Hss. cbn [rbind py_items].
      rewrite Hys. reflexivity.
    + eapply request_delivers; [apply Hs | exact Hd].
  - cbn. eapply Forall2_keys. exact Hf2.
Qed.

Lemma cluster_health_services_witness :
  exists res,
    fst (ClusterClient_health
           (cluster (gateway_at (always (Responded (json_response 200 health_body)))) "c1")
           []) = Ok res /\
    ClusterHealthResponse_cluster_id res = PStr "c1" /\
    dict_keys (ClusterHealthResponse_services res) = dict_keys health_entries /\
    Forall2 (fun kv kh => fst kh = fst kv /\ health_parsed_from (snd kv) (snd kh))
      health_entries (ClusterHealthResponse_services res).
Proof.
  refine (cluster_health_services
            (cluster (gateway_at (always (Responded (json_response 200 health_body)))) "c1")
            [] (json_response 200 health_body)
            [("cluster_id", PStr "c1"); ("services", PDict health_entries)]
            health_entries (PStr "c1") _ _ _ _ _ _).
  - reflexivity.
  - split; [reflexivity | split; [discriminate | reflexivity]].
  - reflexivity.
  - reflexivity.
  - constructor.
    + cbn. intros [H | []]. discriminate H.
    + constructor; [intros [] | constructor].
  - reflexivity.
Defined.

(** X14. The two readers of [services] differ on a cluster object without
    that member: [get_cluster] returns a cluster with no services, while
    [ClusterClient.health] raises a [KeyError] naming the member.  A
    [services] member that is [null] makes [get_cluster] raise a
    [TypeError]. *)
Theorem services_member_absent_or_null (c : ThroomClient) (id : string)
  (log : list http_request) (r : response) (kvs : list (string * pyval)) :
  (forall req, session_ c log req = Responded r) ->
  delivers r (PDict kvs) ->
  forallb (has_key kvs) ["id"; "name"; "created_at"; "cluster_id"] = true ->
  (dict_lookup "services" kvs = None ->
   fst (get_cluster c id log)
   = Ok {| Cluster_id := member (PDict kvs) "id";
           Cluster_name := member (PDict kvs) "name";
           Cluster_created_at := member (PDict kvs) "created_at";
           Cluster_services := [] |} /\
   fst (ClusterClient_health (cluster c id) log)
   = Raise (builtin_error KeyError [FVal (PStr "services")])) /\
  (dict_lookup "services" kvs = Some PNone ->
   fst (get_cluster c id log) = Raise type_error).
Proof.
  intros Hs Hd Hkeys.
  assert (Hreq : forall method path data params,
             fst (_request c method path data params log) = Ok (PDict kvs)).
  { intros. eapply request_delivers; [apply Hs | exact Hd]. }
  cbn in Hkeys. unfold has_key in Hkeys.
  destruct (dict_lookup "id" kvs) as [vid |] eqn:Hid; [|discriminate Hkeys].
  destruct (dict_lookup "name" kvs) as [vname |] eqn:Hname; [|discriminate Hkeys].
  destruct (dict_lookup "created_at" kvs) as [vcreated |] eqn:Hcreated;
    [|discriminate Hkeys].
  destruct (dict_lookup "cluster_id" kvs) as [vcid |] eqn:Hcid; [|discriminate Hkeys].
  split.
  - intros Hnone. split.
    + unfold get_cluster. rewrite (fst_bind_lift _ _ _ (PDict kvs)); [|apply Hreq].
      unfold Cluster_of, py_getitem, py_get, member.
      rewrite Hid, Hname, Hcreated, Hnone. reflexivity.
    + unfold ClusterClient_health.
      rewrite (fst_bind_lift _ _ _ (PDict kvs)); [|apply Hreq].
      unfold py_getitem. rewrite Hcid, Hnone. reflexivity.
  - intros Hnull.
    unfold get_cluster. rewrite (fst_bind_lift _ _ _ (PDict kvs)); [|apply Hreq].
    unfold Cluster_of, py_getitem, py_get.
    rewrite Hid, Hname, Hcreated, Hnull. reflexivity.
Qed.

Lemma services_member_absent_or_null_witness :
  let kvs := [("id", PStr "c2"); ("cluster_id", PStr "c2"); ("name", PStr "bare");
              ("created_at", PStr "2025-01-02T00:00:00Z")] in
  let c := gateway_at (always (Responded (json_response 200 (PDict kvs)))) in
  fst (get_cluster c "c2" [])
  = Ok {| Cluster_id := PStr "c2"; Cluster_name := PStr "bare";
          Cluster_created_at := PStr "2025-01-02T00:00:00Z";
          Cluster_services := [] |} /\
  fst (ClusterClient_health (cluster c "c2") [])
  = Raise (builtin_error KeyError [FVal (PStr "services")]).
Proof.
  cbv zeta.
  refine (proj1 (services_member_absent_or_null
                   (gateway_at (always (Responded (json_response 200 (PDict
                      [("id", PStr "c2"); ("cluster_id", PStr "c2"); ("name", PStr "bare");
                       ("created_at", PStr "2025-01-02T00:00:00Z")])))))
                   "c2" []
                   (json_response 200 (PDict
                      [("id", PStr "c2"); ("cluster_id", PStr "c2"); ("name", PStr "bare");
                       ("created_at", PStr "2025-01-02T00:00:00Z")]))
                   [("id", PStr "c2"); ("cluster_id", PStr "c2"); ("name", PStr "bare");
                    ("created_at", PStr "2025-01-02T00:00:00Z")] _ _ _) _).
  - reflexivity.
  - split; [reflexivity | split; [discriminate | reflexivity]].
  - reflexivity.
  - reflexivity.
Defined.

(** ** Activity logs, parsed *)

Lemma ActivityLog_init_activity_object (v : pyval) :
  is_activity_object v = true ->
  exists a, ActivityLog_init v = Ok a /\ log_parsed_from v a.
Proof.
  intros Hv. destruct v as [ | | | | | | kvs]; try discriminate Hv.
  cbn [is_activity_object] in Hv. apply andb_true_iff in Hv as [Hreq Hkeys].
  unfold ActivityLog_init, dataclass_kwargs.
  cbn [app]. rewrite Hkeys, Hreq. cbn [rbind].
  eexists. split; [reflexivity|].
  unfold log_parsed_from, member. cbn. repeat split.
Qed.

Lemma activity_logs_parse (logs : list pyval) :
  forallb is_activity_object logs = true ->
  exists res, rmap ActivityLog_init logs = Ok res /\ Forall2 log_parsed_from logs res.
Proof.
  induction logs as [| l logs IH]; cbn; intros H.
  - eexists. split; [reflexivity | constructor].
  - apply andb_true_iff in H as [Hl Hlogs].
    destruct (ActivityLog_init_activity_object l Hl) as (a & Ha & Hp).
    destruct (IH Hlogs) as (res & Hres & Hps).
    rewrite Ha. cbn. rewrite Hres. cbn.
    eexists. split; [reflexivity | constructor; assumption].
Qed.

(** X15. When the gateway answers with an array of activity-log objects,
    the three [get_activity] methods return the same list: one record per
    object, in the order of the array (which the client does not sort),
    each holding the members of its object. *)
Theorem activity_logs_in_order (c : ThroomClient) (id svc : string)
  (filters : option ActivityFilters) (log : list http_request) (r : response)
  (logs : list pyval) :
  (forall req, session_ c log req = Responded r) ->
  delivers r (PList logs) ->
  forallb is_activity_object logs = true ->
  exists res,
    fst (get_activity c filters log) = Ok res /\
    fst (ClusterClient_get_activity (cluster c id) filters log) = Ok res /\
    fst (ServiceClient_get_activity (service (cluster c id) svc) filters log) = Ok res /\
    List.length res = List.length logs /\
    Forall2 log_parsed_from logs res.
Proof.
  intros Hs Hd Hall.
  destruct (activity_logs_parse logs Hall) as (res & Hres & Hps).
  assert (Hreq : forall method path data params,
             fst (_request c method path data params log) = Ok (PList logs)).
  { intros. eapply request_delivers; [apply Hs | exact Hd]. }
  exists res.
  repeat match goal with |- _ /\ _ => split end;
    try (unfold get_activity, ClusterClient_get_activity, ServiceClient_get_activity;
         cbv zeta; rewrite (fst_bind_lift _ _ _ (PList logs)); [exact Hres | apply Hreq]).
  - symmetry. eapply Forall2_length. exact Hps.
  - exact Hps.
Qed.

Lemma activity_logs_in_order_witness :
  exists res,
    fst (get_activity (gateway_at (always (Responded (json_response 200 (PList activity_body)))))
           None []) = Ok res /\
    fst (ClusterClient_get_activity
           (cluster (gateway_at (always (Responded (json_response 200 (PList activity_body))))) "c1")
           None []) = Ok res /\
    fst (ServiceClient_get_activity
           (service (cluster (gateway_at (always (Responded (json_response 200 (PList activity_body))))) "c1") "redis-1")
           None []) = Ok res /\
    List.length res = List.length activity_body /\
    Forall2 log_parsed_from activity_body res.
Proof.
  refine (activity_logs_in_order
            (gateway_at (always (Responded (json_response 200 (PList activity_body)))))
            "c1" "redis-1" None [] (json_response 200 (PList activity_body))
            activity_body _ _ _).
  - reflexivity.
  - split; [reflexivity | split; [discriminate | reflexivity]].
  - reflexivity.
Defined.

(** ** Members the records have no field for *)

Lemma forallb_member_false (k : string) (fields keys : list string) :
  In k keys -> mem_string k fields = false ->
  forallb (fun k' => mem_string k' fields) keys = false.
Proof.
  intros Hin Hk. destruct (forallb _ keys) eqn:Hall; [|reflexivity].
  rewrite forallb_forall in Hall. rewrite (Hall k Hin) in Hk. discriminate Hk.
Qed.

Lemma dataclass_kwargs_unknown (required optional : list string)
  (kvs : list (string * pyval)) (k : string) :
  In k (dict_keys kvs) ->
  mem_string k (required ++ optional)%list = false ->
  dataclass_kwargs required optional (PDict kvs) = Raise type_error.
Proof.
  intros Hin Hk. unfold dataclass_kwargs.
  rewrite (forallb_member_false k _ _ Hin Hk). reflexivity.
Qed.

Lemma mem_string_sub (k : string) (sub all : list string) :
  (forall f, In f sub -> In f all) ->
  mem_string k all = false -> mem_string k sub = false.
Proof.
  unfold mem_string. intros Hsub Hall.
  destruct (existsb (String.eqb k) sub) eqn:Hex; [|reflexivity].
  apply existsb_exists in Hex as (f & Hf & Heq).
  assert (Ht : existsb (String.eqb k) all = true).
  { apply existsb_exists. exists f. split; [apply Hsub; exact Hf | exact Heq]. }
  rewrite Ht in Hall. discriminate Hall.
Qed.

(** X16. A body with a member that the record has no field for makes
    [health], [metrics], [get_info] and [create_cluster] raise a
    [TypeError], even though the response is a success: the records are
    built from every member of the body. *)
Theorem unknown_member_rejected (c : ThroomClient) (id svc name : string)
  (services : list (string * ServiceConfig)) (log : list http_request)
  (r : response) (kvs : list (string * pyval)) (k : string) :
  (forall req, session_ c log req = Responded r) ->
  delivers r (PDict kvs) ->
  In k (dict_keys kvs) ->
  mem_string k record_fields = false ->
  fst (health c log) = Raise type_error /\
  fst (metrics (cluster c id) log) = Raise type_error /\
  fst (get_info (service (cluster c id) svc) log) = Raise type_error /\
  fst (create_cluster c name services log) = Raise type_error.
Proof.
  intros Hs Hd Hin Hk.
  assert (Hreq : forall method path data params,
             fst (_request c method path data params log) = Ok (PDict kvs)).
  { intros. eapply request_delivers; [apply Hs | exact Hd]. }
  repeat match goal with |- _ /\ _ => split end;
    unfold health, metrics, get_info, create_cluster; cbv zeta;
    (rewrite (fst_bind_lift _ _ _ (PDict kvs)); [|apply Hreq]);
    unfold HealthResponse_init, MetricsResponse_init, ServiceInfo_init,
      CreateClusterResponse_init;
    (erewrite dataclass_kwargs_unknown; [reflexivity | exact Hin |]);
    (eapply mem_string_sub; [|exact Hk]);
    unfold record_fields; cbn; intros f Hf;
    repeat (destruct Hf as [<- | Hf]; [tauto|]); destruct Hf.
Qed.

Lemma unknown_member_rejected_witness :
  fst (health (gateway_at (always (Responded (json_response 200 (PDict health_with_version))))) [])
  = Raise type_error.
Proof.
  refine (proj1 (unknown_member_rejected
                   (gateway_at (always (Responded (json_response 200 (PDict health_with_version)))))
                   "c1" "redis-1" "demo" [] []
                   (json_response 200 (PDict health_with_version))
                   health_with_version "version" _ _ _ _)).
  - reflexivity.
  - split; [reflexivity | split; [discriminate | reflexivity]].
  - cbn. tauto.
  - reflexivity.
Defined.

(** ** Failures that are not of [requests] *)

Lemma not_RequestException_not_Timeout (e : exn) :
  isinstance e RequestException = false -> isinstance e Timeout = false.
Proof.
  destruct e as [c m s ctx]. unfold isinstance. cbn [exn_cls].
  destruct c; vm_compute; congruence.
Qed.

(** X17. [_request] handles [RequestException] only: a failure of the
    session of any other class (an error of the interpreter, for one)
    reaches the caller of every operation as it is, not wrapped in a
    [ThroomConnectionError]. *)
Theorem other_failures_unwrapped (c : ThroomClient) (log : list http_request) (e : exn) :
  (forall req, session_ c log req = Failed e) ->
  isinstance e RequestException = false ->
  every_operation_raises c log e.
Proof.
  intros Hs He. apply operations_propagate. intros.
  apply request_propagates_other;
    [apply Hs | exact He | apply not_RequestException_not_Timeout; exact He].
Qed.

Lemma other_failures_unwrapped_witness :
  every_operation_raises (gateway_at (always (Failed type_error))) [] type_error.
Proof.
  refine (other_failures_unwrapped (gateway_at (always (Failed type_error))) []
            type_error _ _).
  - reflexivity.
  - reflexivity.
Defined.
